(** * Stock-AI-Agent: the configuration, the StockAgentSystem facade and
    the command line

    A shallow embedding of [config.py], [stock_agent_system.py] and the
    class [StockAgentCLI] of [main.py].
    Dictionaries are finite maps from strings to Python values, the
    process environment is a finite map from names to texts, and code
    that can raise, print or talk to the language-model agents runs in a
    small state-and-exception monad. *)

From Stdlib Require Import ZArith QArith Ascii String.
From stdpp Require Import gmap strings list pretty.

Local Open Scope string_scope.

(** ** Python values *)

Module Py.

(** The values the facade stores in a result dictionary.  Temperatures
    and clock readings are Python floats; the embedding keeps the exact
    rational a decimal text denotes (binary64 rounding is left out). *)
Inductive val : Type :=
  | VNone
  | VBool (b : bool)
  | VInt (z : Z)
  | VFloat (q : Q)
  | VStr (s : string).

(** [bool(v)] *)
Definition truthy (v : val) : bool :=
  match v with
  | VNone => false
  | VBool b => b
  | VInt z => negb (z =? 0)%Z
  | VFloat q => negb (Qnum q =? 0)%Z
  | VStr s => negb (String.eqb s "")
  end.

(** A [Dict[str, Any]]. *)
Abbreviation dict := (gmap string val).

(** [d.get(k)]: the value, or [None] when the key is missing. *)
Definition get (d : dict) (k : string) : val := default VNone (d !! k).

(** [d.get(k, dflt)] *)
Definition get_or (d : dict) (k : string) (dflt : val) : val :=
  default dflt (d !! k).

(** An optional text such as [os.getenv] returns: [None] or a [str]. *)
Definition opt_truthy (o : option string) : bool :=
  match o with
  | None => false
  | Some s => negb (String.eqb s "")
  end.

(** [a or b] on optional texts: [a] when it is truthy, otherwise [b]
    whatever [b] is. *)
Definition or_ (a b : option string) : option string :=
  if opt_truthy a then a else b.

(** An exception object: its class name and [str(e)].  Under [Raised]
    it is an instance of [Exception]; one that derives from
    [BaseException] alone travels under [Escaped], below. *)
Record exn : Type := Exn { exn_class : string; exn_str : string }.

Definition ValueError (msg : string) : exn := Exn "ValueError" msg.
Definition AttributeError (msg : string) : exn := Exn "AttributeError" msg.

(** How a call ends: it returns, or raises an instance of
    [Exception]. *)
Inductive outcome (A : Type) : Type :=
  | Returned (a : A)
  | Raised (e : exn).
Arguments Returned {A} a.
Arguments Raised {A} e.

(** The exceptions that are no instance of [Exception]: a task that is
    cancelled while it awaits, and the interrupt from the keyboard. *)
Definition CancelledError (msg : string) : exn := Exn "CancelledError" msg.
Definition KeyboardInterrupt : exn := Exn "KeyboardInterrupt" "".

(** How a computation ends: like a call, or by an exception that
    derives from [BaseException] alone, which [except Exception] does
    not catch. *)
Inductive ending (A : Type) : Type :=
  | Ended (o : outcome A)
  | Escaped (e : exn).
Arguments Ended {A} o.
Arguments Escaped {A} e.

Coercion Ended : outcome >-> ending.

Arguments pair {A B} & a b.

(** *** Texts *)

Definition lower_ascii (c : ascii) : ascii :=
  let n := nat_of_ascii c in
  if (65 <=? n)%nat && (n <=? 90)%nat then ascii_of_nat (n + 32) else c.

(** [s.lower()] on ASCII text. *)
Fixpoint lower (s : string) : string :=
  match s with
  | EmptyString => EmptyString
  | String c s' => String (lower_ascii c) (lower s')
  end.

(** [sep.join(parts)] *)
Fixpoint join (sep : string) (parts : list string) : string :=
  match parts with
  | [] => ""
  | [p] => p
  | p :: rest => p +:+ sep +:+ join sep rest
  end.

(** *** Reading numbers: [int(text)] and [float(text)] *)

Definition is_space (c : ascii) : bool :=
  let n := nat_of_ascii c in
  (n =? 32)%nat || ((9 <=? n)%nat && (n <=? 13)%nat).

Definition is_digit (c : ascii) : bool :=
  let n := nat_of_ascii c in (48 <=? n)%nat && (n <=? 57)%nat.

Definition digit_val (c : ascii) : Z := Z.of_nat (nat_of_ascii c) - 48.

Fixpoint lstrip (l : list ascii) : list ascii :=
  match l with
  | c :: l' => if is_space c then lstrip l' else l
  | [] => []
  end.

Definition strip (l : list ascii) : list ascii :=
  rev (lstrip (rev (lstrip l))).

(** Reads a run of decimal digits: the number read so far, how many
    digits were read, and what follows. *)
Fixpoint read_digits (acc : Z) (n : nat) (l : list ascii)
  : Z * nat * list ascii :=
  match l with
  | c :: l' =>
      if is_digit c then read_digits (10 * acc + digit_val c) (S n) l'
      else (acc, n, l)
  | [] => (acc, n, [])
  end.

(** An optional sign: [true] for a minus. *)
Definition read_sign (l : list ascii) : bool * list ascii :=
  match l with
  | "-"%char :: l' => (true, l')
  | "+"%char :: l' => (false, l')
  | _ => (false, l)
  end.

Definition apply_sign (neg : bool) (z : Z) : Z := if neg then (- z)%Z else z.

Definition int_error (s : string) : exn :=
  ValueError ("invalid literal for int() with base 10: '" +:+ s +:+ "'").

Definition float_error (s : string) : exn :=
  ValueError ("could not convert string to float: '" +:+ s +:+ "'").

(** [int(s)] for a decimal text: surrounding blanks, a sign, digits.
    (Digit-group underscores and non-ASCII digits are not modelled.) *)
Definition int (s : string) : outcome Z :=
  let '(neg, l) := read_sign (strip (list_ascii_of_string s)) in
  match read_digits 0 0 l with
  | (z, S _, []) => Returned (apply_sign neg z)
  | _ => Raised (int_error s)
  end.

(** The exponent part of a float text, when there is one. *)
Definition read_exponent (l : list ascii) : option Z :=
  match l with
  | [] => Some 0%Z
  | c :: l' =>
      if (Ascii.eqb c "e" || Ascii.eqb c "E")%char then
        let '(neg, l'') := read_sign l' in
        match read_digits 0 0 l'' with
        | (z, S _, []) => Some (apply_sign neg z)
        | _ => None
        end
      else None
  end.

(** [m * 10^e] as a reduced fraction. *)
Definition scale10 (m e : Z) : Q :=
  if (0 <=? e)%Z then Qred (inject_Z (m * 10 ^ e))
  else Qred (Qmake m (Z.to_pos (10 ^ (- e)))).

(** [float(s)] for a decimal text: surrounding blanks, a sign, digits
    with an optional fraction, an optional exponent.  ([inf], [nan] and
    digit-group underscores are not modelled.) *)
Definition float (s : string) : outcome Q :=
  let '(neg, l) := read_sign (strip (list_ascii_of_string s)) in
  let '(ip, ni, l1) := read_digits 0 0 l in
  let '(m, nf, l2) :=
    match l1 with
    | "."%char :: l1' => read_digits ip 0 l1'
    | _ => (ip, 0%nat, l1)
    end in
  match (ni + nf)%nat, read_exponent l2 with
  | S _, Some e => Returned (scale10 (apply_sign neg m) (e - Z.of_nat nf))
  | _, _ => Raised (float_error s)
  end.

End Py.

Import Py.

(** ** Effects: state, exceptions, the console *)

(** A computation over a state [S] that returns an [A], raises, or is
    left by an exception that is no [Exception].  What was written to
    the state before the exception stays written, as in Python. *)
Definition M (S A : Type) : Type := S -> ending A * S.

Definition ret {S A} (a : A) : M S A := fun s => (Returned a, s).

Definition raise {S A} (e : exn) : M S A := fun s => (Raised e, s).

Definition bind {S A B} (m : M S A) (k : A -> M S B) : M S B :=
  fun s =>
    match m s with
    | (Ended (Returned a), s') => k a s'
    | (Ended (Raised e), s') => (Raised e, s')
    | (Escaped e, s') => (Escaped e, s')
    end.

(** [try: body / except Exception as e: handler e].  An exception that
    is no instance of [Exception] passes through. *)
Definition try_except {S A} (body : M S A) (handler : exn -> M S A) : M S A :=
  fun s =>
    match body s with
    | (Ended (Returned a), s') => (Returned a, s')
    | (Ended (Raised e), s') => handler e s'
    | (Escaped e, s') => (Escaped e, s')
    end.

(** [try: body / except KeyboardInterrupt: interrupted / except
    Exception as e: handler e] *)
Definition try_except_interrupt {S A} (body : M S A) (interrupted : M S A)
    (handler : exn -> M S A) : M S A :=
  fun s =>
    match body s with
    | (Ended (Returned a), s') => (Returned a, s')
    | (Ended (Raised e), s') => handler e s'
    | (Escaped e, s') =>
        if String.eqb (exn_class e) "KeyboardInterrupt" then interrupted s'
        else (Escaped e, s')
    end.

Definition gets {S A} (f : S -> A) : M S A := fun s => (Returned (f s), s).

Definition modify {S} (f : S -> S) : M S unit := fun s => (Returned tt, f s).

Declare Scope py_scope.
Delimit Scope py_scope with py.
Notation "'do' x <- m ; k" := (bind m (fun x => k))
  (at level 10, x name, m at level 100, k at level 200) : py_scope.
Notation "'do_' m ; k" := (bind m (fun _ => k))
  (at level 10, m at level 100, k at level 200) : py_scope.

(** A state that carries the lines written to standard output. *)
Class Console (S : Type) : Type := {
  stdout : S -> list string;
  with_stdout : list string -> S -> S
}.

(** [print(line)] *)
Definition print {S} `{Console S} (line : string) : M S unit :=
  modify (fun s => with_stdout (stdout s ++ [line]) s).

(** ** config.py *)

Module Config.

(** The process environment after [load_dotenv()]. *)
Abbreviation environ := (gmap string string).

(** [os.getenv(name)] *)
Definition getenv (env : environ) (name : string) : option string :=
  env !! name.

(** [os.getenv(name, dflt)] *)
Definition getenv_or (env : environ) (name dflt : string) : string :=
  default dflt (env !! name).

(** The attributes of class [Config]. *)
Record t : Type := Build {
  OPENAI_API_KEY : option string;
  OPENAI_MODEL : string;
  ALPHA_VANTAGE_API_KEY : option string;
  FINNHUB_API_KEY : option string;
  MASTER_AGENT_TEMPERATURE : Q;
  JUNIOR_AGENT_TEMPERATURE : Q;
  ORCHESTRATOR_AGENT_TEMPERATURE : Q;
  MAX_ITERATIONS : Z;
  VERBOSE : bool
}.

(** Sequencing of the conversions in the class body: the first one that
    raises ends the import. *)
Definition and_then {A B} (o : outcome A) (k : A -> outcome B) : outcome B :=
  match o with
  | Returned a => k a
  | Raised e => Raised e
  end.

(** The class body, run once when the module is imported. *)
Definition class_body (env : environ) : outcome t :=
  let openai_api_key := getenv env "OPENAI_API_KEY" in
  let openai_model := getenv_or env "OPENAI_MODEL" "gpt-4" in
  let alpha_vantage_api_key := getenv env "ALPHA_VANTAGE_API_KEY" in
  let finnhub_api_key := getenv env "FINNHUB_API_KEY" in
  and_then (Py.float (getenv_or env "MASTER_AGENT_TEMPERATURE" "0.7"))
    (fun master =>
  and_then (Py.float (getenv_or env "JUNIOR_AGENT_TEMPERATURE" "0.5"))
    (fun junior =>
  and_then (Py.float (getenv_or env "ORCHESTRATOR_AGENT_TEMPERATURE" "0.3"))
    (fun orchestrator =>
  and_then (Py.int (getenv_or env "MAX_ITERATIONS" "10"))
    (fun max_iterations =>
  let verbose :=
    String.eqb (Py.lower (getenv_or env "VERBOSE" "True")) "true" in
  Returned
    (Build openai_api_key openai_model alpha_vantage_api_key
       finnhub_api_key master junior orchestrator max_iterations
       verbose))))).

Definition openai_required : string :=
  "OPENAI_API_KEY is required. Please set it in your .env file".

Definition no_stock_key_warning : string :=
  "Warning: No stock API key found. Using yfinance as fallback.".

(** [Config.validate_config()] *)
Definition validate_config {S} `{Console S} (cls : t) : M S unit :=
  if negb (opt_truthy (OPENAI_API_KEY cls)) then
    raise (ValueError openai_required)
  else if negb (opt_truthy (ALPHA_VANTAGE_API_KEY cls))
          && negb (opt_truthy (FINNHUB_API_KEY cls)) then
    print no_stock_key_warning
  else ret tt.

(** [Config.get_stock_api_key()] *)
Definition get_stock_api_key (cls : t) : option string :=
  Py.or_ (ALPHA_VANTAGE_API_KEY cls) (FINNHUB_API_KEY cls).

End Config.

(** ** The collaborators: [tools] and [agents]

    The facade imports [get_stock_tools] from the tools module and the
    three agent classes from the agents package.  They call a language
    model and stock-data providers, so their behaviour is kept abstract:
    every agent call reads and changes an external world and may raise. *)

Class Collaborators : Type := {
  (** the language model, the providers, the event loop *)
  World : Type;
  (** a tool object *)
  Tool : Type;
  (** a handle on an agent object; what the agent remembers lives in
      the world *)
  Agent : Type;
  (** Modelled from the spec: [tools.get_stock_tools] is not among the
      sources; it binds the provider credential once and yields the
      shared, stateless tool set. *)
  get_stock_tools : option string -> list Tool;
  (** the constructors [OrchestratorAgent(...)], [JuniorAgent(...)],
      [MasterAgent(...)]: model name, temperature, tools, verbose *)
  OrchestratorAgent :
    string -> Q -> list Tool -> bool -> World -> outcome Agent * World;
  JuniorAgent :
    string -> Q -> list Tool -> bool -> World -> outcome Agent * World;
  MasterAgent :
    string -> Q -> list Tool -> bool -> World -> outcome Agent * World;
  (** [orchestrator.setup_agents(junior_tools=..., master_tools=...)] *)
  setup_agents :
    Agent -> list Tool -> list Tool -> World -> outcome unit * World;
  (** [await orchestrator.orchestrate_analysis(query)]: the call is
      awaited, so beside returning or raising it can end by the
      cancellation of the task *)
  orchestrate_analysis : Agent -> string -> World -> ending dict * World;
  (** [asyncio.get_event_loop().time()] *)
  loop_time : World -> Q
}.

(** What the introspection methods of the facade read from the agent and
    tool objects. *)
Class Reflection `{Collaborators} : Type := {
  (** [bool(agent)]: the truth value of an agent object *)
  agent_bool : Agent -> bool;
  (** [agent.get_capabilities()] *)
  get_capabilities : Agent -> World -> outcome (list string) * World;
  (** Modelled from the spec: every tool exposes a [name] and a
      [description], both texts. *)
  tool_name : Tool -> string;
  tool_description : Tool -> string
}.

(** ** stock_agent_system.py *)

Module StockAgentSystem.

Section Facade.

Context `{Collaborators}.

(** One element of [session_history]: the dictionary with the keys
    [query], [result] and [timestamp]. *)
Record entry : Type := Entry {
  entry_query : string;
  entry_result : dict;
  entry_timestamp : Q
}.

(** The attributes of a [StockAgentSystem] object. *)
Record t : Type := Build {
  config : Config.t;
  stock_tools : list Tool;
  orchestrator : option Agent;
  junior_agent : option Agent;
  master_agent : option Agent;
  is_initialized : bool;
  session_history : list entry
}.

Definition set_orchestrator (a : option Agent) (o : t) : t :=
  Build (config o) (stock_tools o) a (junior_agent o) (master_agent o)
    (is_initialized o) (session_history o).

Definition set_junior_agent (a : option Agent) (o : t) : t :=
  Build (config o) (stock_tools o) (orchestrator o) a (master_agent o)
    (is_initialized o) (session_history o).

Definition set_master_agent (a : option Agent) (o : t) : t :=
  Build (config o) (stock_tools o) (orchestrator o) (junior_agent o) a
    (is_initialized o) (session_history o).

Definition set_is_initialized (b : bool) (o : t) : t :=
  Build (config o) (stock_tools o) (orchestrator o) (junior_agent o)
    (master_agent o) b (session_history o).

Definition set_session_history (h : list entry) (o : t) : t :=
  Build (config o) (stock_tools o) (orchestrator o) (junior_agent o)
    (master_agent o) (is_initialized o) h.

(** The running process: the external world and the console. *)
Record process : Type := Process {
  world : World;
  console : list string
}.

#[export] Instance process_console : Console process := {|
  stdout := console;
  with_stdout out p := Process (world p) out
|}.

(** A method call: the object [self] and the process around it. *)
Record frame : Type := Frame {
  self : t;
  proc : process
}.

#[export] Instance frame_console : Console frame := {|
  stdout f := console (proc f);
  with_stdout out f := Frame (self f) (with_stdout out (proc f))
|}.

(** [self.attr = v] *)
Definition assign (upd : t -> t) : M frame unit :=
  modify (fun f => Frame (upd (self f)) (proc f)).

(** A call into a collaborator. *)
Definition extern {A} (call : World -> outcome A * World) : M frame A :=
  fun f =>
    let '(r, w) := call (world (proc f)) in
    (r, Frame (self f) (Process w (console (proc f)))).

(** [await call]: a call into a collaborator that is awaited. *)
Definition await {A} (call : World -> ending A * World) : M frame A :=
  fun f =>
    let '(r, w) := call (world (proc f)) in
    (r, Frame (self f) (Process w (console (proc f)))).

(** [self.orchestrator.method]: an attribute of [None] cannot be read. *)
Definition attr_of (a : option Agent) (method : string) : M frame Agent :=
  match a with
  | Some ag => ret ag
  | None =>
      raise (AttributeError
               ("'NoneType' object has no attribute '" +:+ method +:+ "'"))
  end.

Local Open Scope py_scope.

Definition initialized_message : string :=
  "✅ Stock Agent System initialized successfully!".

Definition init_error_message (e : exn) : string :=
  "❌ Error initializing system: " +:+ exn_str e.

(** [StockAgentSystem._initialize_system] *)
Definition _initialize_system : M frame unit :=
  try_except
    (do cfg <- gets (fun f => config (self f));
     do tools <- gets (fun f => stock_tools (self f));
     do orch <- extern (OrchestratorAgent
                          (Config.OPENAI_MODEL cfg)
                          (Config.ORCHESTRATOR_AGENT_TEMPERATURE cfg)
                          tools (Config.VERBOSE cfg));
     do_ assign (set_orchestrator (Some orch));
     do junior <- extern (JuniorAgent
                            (Config.OPENAI_MODEL cfg)
                            (Config.JUNIOR_AGENT_TEMPERATURE cfg)
                            tools (Config.VERBOSE cfg));
     do_ assign (set_junior_agent (Some junior));
     do master <- extern (MasterAgent
                            (Config.OPENAI_MODEL cfg)
                            (Config.MASTER_AGENT_TEMPERATURE cfg)
                            tools (Config.VERBOSE cfg));
     do_ assign (set_master_agent (Some master));
     do o <- gets (fun f => orchestrator (self f));
     do orch' <- attr_of o "setup_agents";
     do_ extern (setup_agents orch' tools tools);
     do_ assign (set_is_initialized true);
     print initialized_message)
    (fun e =>
     do_ print (init_error_message e);
     assign (set_is_initialized false)).

(** [StockAgentSystem.__init__] with the configuration in force (the
    class attributes of [Config]). *)
Definition __init__ (cfg : Config.t) : M process t :=
  fun p =>
    match Config.validate_config cfg p with
    | (Ended (Raised e), p') => (Raised e, p')
    | (Escaped e, p') => (Escaped e, p')
    | (Ended (Returned _), p') =>
        let tools := get_stock_tools (Config.get_stock_api_key cfg) in
        let blank := Build cfg tools None None None false [] in
        match _initialize_system (Frame blank p') with
        | (Ended (Returned _), f) => (Returned (self f), proc f)
        | (Ended (Raised e), f) => (Raised e, proc f)
        | (Escaped e, f) => (Escaped e, proc f)
        end
    end.

Definition not_initialized_result : dict :=
  {[ "error" := VStr "System not initialized" ]}.

Definition analysis_failed_result (e : exn) (query : string) : dict :=
  <[ "error" := VStr ("Analysis failed: " +:+ exn_str e) ]>
    {[ "query" := VStr query ]}.

(** [StockAgentSystem.analyze_query] *)
Definition analyze_query (query : string) : M frame dict :=
  do ready <- gets (fun f => is_initialized (self f));
  if negb ready then ret not_initialized_result
  else
    try_except
      (do o <- gets (fun f => orchestrator (self f));
       do orch <- attr_of o "orchestrate_analysis";
       do result <- await (orchestrate_analysis orch query);
       do history <- gets (fun f => session_history (self f));
       do now <- gets (fun f => loop_time (world (proc f)));
       do_ assign (set_session_history
                     (history ++ [Entry query result now]));
       ret result)
      (fun e => ret (analysis_failed_result e query)).

(** [StockAgentSystem.get_stock_price] *)
Definition get_stock_price (symbol : string) : M frame dict :=
  analyze_query ("Get the current stock price for " +:+ symbol).

(** [StockAgentSystem.get_stock_info] *)
Definition get_stock_info (symbol : string) : M frame dict :=
  analyze_query ("Get detailed information about " +:+ symbol).

(** [StockAgentSystem.analyze_stock] *)
Definition analyze_stock (symbol : string) : M frame dict :=
  analyze_query ("Perform comprehensive analysis of " +:+ symbol).

(** [StockAgentSystem.compare_stocks] *)
Definition compare_stocks (symbols : list string) : M frame dict :=
  let symbols_str := Py.join ", " symbols in
  analyze_query ("Compare these stocks: " +:+ symbols_str).

(** [StockAgentSystem.portfolio_analysis] *)
Definition portfolio_analysis (symbols : list string) : M frame dict :=
  let symbols_str := Py.join ", " symbols in
  analyze_query ("Analyze this portfolio: " +:+ symbols_str).

(** [StockAgentSystem.market_research] *)
Definition market_research (topic : string) : M frame dict :=
  analyze_query ("Research the market for: " +:+ topic).

(** [StockAgentSystem.get_session_history] *)
Definition get_session_history : M frame (list entry) :=
  gets (fun f => session_history (self f)).

(** [StockAgentSystem.clear_session_history] *)
Definition clear_session_history : M frame unit :=
  assign (set_session_history []).

(** [StockAgentSystem.test_system]: the query, the result, and
    [result.get("success", False)]. *)
Definition test_system : M frame (string * dict * val) :=
  let test_query := "Get the current stock price for AAPL" in
  do result <- analyze_query test_query;
  ret (test_query, result, Py.get_or result "success" (VBool false)).

Context `{!Reflection}.

(** [bool(self.agent)] for an attribute that is [None] or an agent. *)
Definition attr_bool (a : option Agent) : bool :=
  match a with
  | None => false
  | Some ag => agent_bool ag
  end.

(** The dictionary under the key [config] of the status. *)
Record status_config : Type := StatusConfig {
  status_model : string;
  status_verbose : bool;
  status_max_iterations : Z
}.

(** The dictionary under the key [agents] of the status. *)
Record status_agents : Type := StatusAgents {
  status_orchestrator : bool;
  status_junior : bool;
  status_master : bool
}.

(** The dictionary [get_system_status] returns. *)
Record status : Type := Status {
  status_initialized : bool;
  status_of_config : status_config;
  status_of_agents : status_agents;
  status_tools : nat;
  status_session_history_length : nat
}.

(** [StockAgentSystem.get_system_status] *)
Definition get_system_status : M frame status :=
  do o <- gets self;
  ret (Status
         (is_initialized o)
         (StatusConfig
            (Config.OPENAI_MODEL (config o))
            (Config.VERBOSE (config o))
            (Config.MAX_ITERATIONS (config o)))
         (StatusAgents
            (attr_bool (orchestrator o))
            (attr_bool (junior_agent o))
            (attr_bool (master_agent o)))
         (length (stock_tools o))
         (length (session_history o))).

Definition orchestrator_capabilities : list string :=
  ["Coordinate between agents"; "Route queries appropriately";
   "Synthesize results"; "Quality control"].

(** [agent.get_capabilities() if agent else []] *)
Definition capabilities_of (a : option Agent) : M frame (list string) :=
  if attr_bool a then
    do ag <- attr_of a "get_capabilities";
    extern (get_capabilities ag)
  else ret [].

(** [StockAgentSystem.get_agent_capabilities]: the dictionary, its keys
    in the order they are inserted. *)
Definition get_agent_capabilities : M frame (list (string * list string)) :=
  do ready <- gets (fun f => is_initialized (self f));
  if negb ready then ret []
  else
    do j <- gets (fun f => junior_agent (self f));
    do junior <- capabilities_of j;
    do m <- gets (fun f => master_agent (self f));
    do master <- capabilities_of m;
    ret [("orchestrator", orchestrator_capabilities);
         ("junior", junior);
         ("master", master)].

(** [StockAgentSystem.get_available_tools] *)
Definition get_available_tools : M frame (list dict) :=
  do tools <- gets (fun f => stock_tools (self f));
  ret (map (fun tool =>
              <[ "name" := VStr (tool_name tool) ]>
                {[ "description" := VStr (tool_description tool) ]})
           tools).

(** [str(b)] for a boolean. *)
Definition str_bool (b : bool) : string := if b then "True" else "False".

(** [StockAgentSystem.__str__] *)
Definition __str__ : M frame string :=
  do o <- gets self;
  ret ("StockAgentSystem(initialized=" +:+ str_bool (is_initialized o)
       +:+ ", agents=3, tools=" +:+ pretty (length (stock_tools o))
       +:+ ")").

(** [StockAgentSystem.__repr__] *)
Definition __repr__ : M frame string := __str__.

End Facade.

End StockAgentSystem.

(** ** More of Python's texts *)

Module Text.

(** A newline and a double quote. *)
Definition nl : string := String "010"%char "".
Definition dq : string := String "034"%char "".

(** [s * n] *)
Fixpoint times (s : string) (n : nat) : string :=
  match n with
  | O => ""
  | S n' => s +:+ times s n'
  end.

Definition upper_ascii (c : ascii) : ascii :=
  let n := nat_of_ascii c in
  if (97 <=? n)%nat && (n <=? 122)%nat then ascii_of_nat (n - 32) else c.

(** [s.upper()] on ASCII text. *)
Fixpoint upper (s : string) : string :=
  match s with
  | EmptyString => EmptyString
  | String c s' => String (upper_ascii c) (upper s')
  end.

(** Texts are kept as their UTF-8 bytes.  The characters [str.isspace]
    accepts are the one-byte blanks and controls 9-13, 28-31 and 32, and
    the multi-byte U+0085, U+00A0, U+1680, U+2000-U+200A, U+2028,
    U+2029, U+202F, U+205F and U+3000. *)
Definition one_byte_space (c : N) : bool :=
  ((c =? 32) || ((9 <=? c) && (c <=? 13)) || ((28 <=? c) && (c <=? 31)))%N.

Definition general_punctuation_space (b : N) : bool :=
  (((128 <=? b) && (b <=? 138)) || (b =? 168) || (b =? 169) || (b =? 175))%N.

(** How many bytes the whitespace character at the head of the text
    takes; 0 when the text does not start with one. *)
Definition leading_space (l : list N) : nat :=
  match l with
  | c :: rest =>
      if one_byte_space c then 1%nat
      else
        match rest with
        | b1 :: rest' =>
            if ((c =? 194) && ((b1 =? 133) || (b1 =? 160)))%N then 2%nat
            else
              match rest' with
              | b2 :: _ =>
                  if (((c =? 225) && (b1 =? 154) && (b2 =? 128))
                      || ((c =? 226) && (b1 =? 128)
                          && general_punctuation_space b2)
                      || ((c =? 226) && (b1 =? 129) && (b2 =? 159))
                      || ((c =? 227) && (b1 =? 128) && (b2 =? 128)))%N
                  then 3%nat else 0%nat
              | [] => 0%nat
              end
        | [] => 0%nat
        end
  | [] => 0%nat
  end.

(** The same for the character at the end, on the reversed bytes. *)
Definition trailing_space (r : list N) : nat :=
  match r with
  | c :: rest =>
      if one_byte_space c then 1%nat
      else
        match rest with
        | b1 :: rest' =>
            if ((b1 =? 194) && ((c =? 133) || (c =? 160)))%N then 2%nat
            else
              match rest' with
              | b2 :: _ =>
                  if (((b2 =? 225) && (b1 =? 154) && (c =? 128))
                      || ((b2 =? 226) && (b1 =? 128)
                          && general_punctuation_space c)
                      || ((b2 =? 226) && (b1 =? 129) && (c =? 159))
                      || ((b2 =? 227) && (b1 =? 128) && (c =? 128)))%N
                  then 3%nat else 0%nat
              | [] => 0%nat
              end
        | [] => 0%nat
        end
  | [] => 0%nat
  end.

(** Drops whitespace characters, found by [width], from the head of the
    bytes; [fuel] bounds the number of characters dropped. *)
Fixpoint drop_spaces (width : list N -> nat) (fuel : nat) (l : list N)
  : list N :=
  match fuel with
  | O => l
  | S fuel' =>
      match width l with
      | O => l
      | S k => drop_spaces width fuel' (drop (S k) l)
      end
  end.

Definition bytes_of (s : string) : list N :=
  map N_of_ascii (list_ascii_of_string s).

Definition of_bytes (l : list N) : string :=
  string_of_list_ascii (map ascii_of_N l).

(** [s.strip()] *)
Definition strip (s : string) : string :=
  let l := bytes_of s in
  let l1 := drop_spaces leading_space (length l) l in
  let r := drop_spaces trailing_space (length l1) (rev l1) in
  of_bytes (rev r).

(** A character starts at every byte that is no continuation byte
    (128-191) of the UTF-8 encoding. *)
Definition continuation (c : ascii) : bool :=
  let n := nat_of_ascii c in (128 <=? n)%nat && (n <=? 191)%nat.

(** [len(s)]: the number of characters. *)
Fixpoint len (s : string) : nat :=
  match s with
  | EmptyString => 0%nat
  | String c s' => if continuation c then len s' else S (len s')
  end.

(** [s[:n]]: the first [n] characters. *)
Fixpoint take (n : nat) (s : string) : string :=
  match s with
  | EmptyString => EmptyString
  | String c s' =>
      if continuation c then String c (take n s')
      else
        match n with
        | O => EmptyString
        | S n' => String c (take n' s')
        end
  end.

(** [type(v).__name__] *)
Definition type_name (v : val) : string :=
  match v with
  | VNone => "NoneType"
  | VBool _ => "bool"
  | VInt _ => "int"
  | VFloat _ => "float"
  | VStr _ => "str"
  end.

Definition KeyError (key : string) : exn :=
  Exn "KeyError" ("'" +:+ key +:+ "'").
Definition TypeError (msg : string) : exn := Exn "TypeError" msg.
Definition EOFError (msg : string) : exn := Exn "EOFError" msg.

End Text.

Import Text.

(** [d[key]] *)
Definition getitem {S} (d : dict) (key : string) : M S val :=
  match d !! key with
  | Some v => ret v
  | None => raise (KeyError key)
  end.

(** [for x in xs: body x] *)
Fixpoint for_each {S A} (xs : list A) (body : A -> M S unit) : M S unit :=
  match xs with
  | [] => ret tt
  | x :: rest => bind (body x) (fun _ => for_each rest body)
  end.

(** [enumerate(xs, start)] *)
Fixpoint enumerate {A} (xs : list A) (start : nat) : list (nat * A) :=
  match xs with
  | [] => []
  | x :: rest => (start, x) :: enumerate rest (S start)
  end.

(** [xs[-n:]] for a positive [n] *)
Definition last_items {A} (n : nat) (xs : list A) : list A :=
  drop (length xs - n) xs.

(** What the command-line program needs beside the agents: the event
    loop's [asyncio.sleep], which is awaited; what the interpreter does
    with Ctrl-C while [input] waits; and the text Python prints for a
    float. *)
Class Runtime `{Collaborators} : Type := {
  sleep : Z -> World -> ending unit * World;
  (** [true]: [KeyboardInterrupt] is raised inside [input].  [false]:
      the signal only asks for the cancellation of the running task, as
      [asyncio.run] arranges it for a first Ctrl-C since Python 3.11,
      and [input] goes on reading; the world remembers the request. *)
  sigint : World -> bool * World;
  float_str : Q -> string
}.

(** ** main.py: the command-line program *)

Module StockAgentCLI.

Section CLI.

Context `{Collaborators} `{!Reflection} `{!Runtime}.

Local Open Scope py_scope.

(** [str(v)], as [print] and the f-strings apply it. *)
Definition str (v : val) : string :=
  match v with
  | VNone => "None"
  | VBool b => StockAgentSystem.str_bool b
  | VInt z => pretty z
  | VFloat q => float_str q
  | VStr s => s
  end.

(** The attributes of a [StockAgentCLI] object. *)
Record t : Type := Build {
  system : option StockAgentSystem.t;
  running : bool
}.

(** What the user does while [input] waits: a line of text, or
    Ctrl-C. *)
Inductive key : Type :=
  | Line (text : string)
  | CtrlC.

(** A run of the program: the object, the process, and what is still
    to come on standard input. *)
Record session : Type := Session {
  cli : t;
  terminal : StockAgentSystem.process;
  stdin : list key
}.

#[export] Instance session_console : Console session := {|
  stdout s := StockAgentSystem.console (terminal s);
  with_stdout out s :=
    Session (cli s)
      (StockAgentSystem.Process (StockAgentSystem.world (terminal s)) out)
      (stdin s)
|}.

(** [StockAgentCLI.__init__] *)
Definition __init__ : t := Build None true.

Definition assign_system (o : option StockAgentSystem.t) : M session unit :=
  modify (fun s => Session (Build o (running (cli s))) (terminal s) (stdin s)).

Definition assign_running (b : bool) : M session unit :=
  modify (fun s => Session (Build (system (cli s)) b) (terminal s) (stdin s)).

(** [self.system.method(...)]: the call runs on the system object, in
    the same process. *)
Definition on_system {A} (method : string)
    (call : M StockAgentSystem.frame A) : M session A :=
  fun s =>
    match system (cli s) with
    | None =>
        (Raised (AttributeError
                   ("'NoneType' object has no attribute '" +:+ method
                    +:+ "'")), s)
    | Some o =>
        let '(r, f) := call (StockAgentSystem.Frame o (terminal s)) in
        (r, Session (Build (Some (StockAgentSystem.self f)) (running (cli s)))
              (StockAgentSystem.proc f) (stdin s))
    end.

(** [StockAgentSystem()] with the configuration in force. *)
Definition construct (cfg : Config.t) : M session StockAgentSystem.t :=
  fun s =>
    let '(r, p) := StockAgentSystem.__init__ cfg (terminal s) in
    (r, Session (cli s) p (stdin s)).

(** [await asyncio.sleep(seconds)] *)
Definition await_sleep (seconds : Z) : M session unit :=
  fun s =>
    let '(r, w) := sleep seconds (StockAgentSystem.world (terminal s)) in
    (r, Session (cli s)
          (StockAgentSystem.Process w
             (StockAgentSystem.console (terminal s)))
          (stdin s)).

(** Reading a line from what is typed: a line is handed back; at the
    end of the input [EOFError] is raised; a Ctrl-C either raises
    [KeyboardInterrupt] or is taken by the event loop, and then the
    reading goes on. *)
Fixpoint read_line (keys : list key) (w : World)
  : ending string * World * list key :=
  match keys with
  | [] => (Raised (EOFError "EOF when reading a line"), w, [])
  | Line text :: rest => (Returned text, w, rest)
  | CtrlC :: rest =>
      let '(raised, w') := sigint w in
      if raised then (Escaped KeyboardInterrupt, w', rest)
      else read_line rest w'
  end.

(** [input(prompt)]: the prompt is written (without a newline), then a
    line is read. *)
Definition input (prompt : string) : M session string :=
  fun s =>
    let '(r, w, rest) :=
      read_line (stdin s) (StockAgentSystem.world (terminal s)) in
    (r, Session (cli s)
          (StockAgentSystem.Process w
             (StockAgentSystem.console (terminal s) ++ [prompt]))
          rest).

(** [StockAgentCLI.show_system_info] *)
Definition show_system_info : M session unit :=
  do status <- on_system "get_system_status"
                 StockAgentSystem.get_system_status;
  do capabilities <- on_system "get_agent_capabilities"
                       StockAgentSystem.get_agent_capabilities;
  do tools <- on_system "get_available_tools"
                StockAgentSystem.get_available_tools;
  do_ print (nl +:+ "📊 SYSTEM INFORMATION:");
  do_ print ("Status: "
             +:+ (if StockAgentSystem.status_initialized status
                  then "✅ Initialized" else "❌ Not Initialized"));
  do_ print ("Model: "
             +:+ StockAgentSystem.status_model
                   (StockAgentSystem.status_of_config status));
  do_ print ("Tools Available: "
             +:+ pretty (StockAgentSystem.status_tools status));
  do_ print ("Session History: "
             +:+ pretty (StockAgentSystem.status_session_history_length
                           status)
             +:+ " queries");
  do_ print (nl +:+ "🤖 AGENT CAPABILITIES:");
  do_ for_each capabilities
        (fun '(agent, caps) =>
           do_ print (nl +:+ upper agent +:+ " AGENT:");
           for_each caps (fun cap => print ("  • " +:+ cap)));
  do_ print (nl +:+ "🛠️ AVAILABLE TOOLS:");
  for_each tools
    (fun tool =>
       do name <- getitem tool "name";
       do description <- getitem tool "description";
       print ("  • " +:+ str name +:+ ": " +:+ str description)).

(** [StockAgentCLI.initialize]: [True] or [False]. *)
Definition initialize (cfg : Config.t) : M session bool :=
  do_ print "🚀 Initializing AI Stock Analysis Agent System...";
  do_ print (times "=" 50);
  try_except
    (do sys <- construct cfg;
     do_ assign_system (Some sys);
     do ready <- on_system "is_initialized"
                   (gets (fun f => StockAgentSystem.is_initialized
                                     (StockAgentSystem.self f)));
     if ready then
       do_ print "✅ System initialized successfully!";
       do_ show_system_info;
       ret true
     else
       do_ print "❌ Failed to initialize system";
       ret false)
    (fun e =>
       do_ print ("❌ Error during initialization: " +:+ exn_str e);
       ret false).

(** The text of [show_help]. *)
Definition help_text : string :=
  Py.join nl
    ["";
     "📚 AVAILABLE COMMANDS:";
     "";
     "Query Commands:";
     "  • Any stock-related question (e.g., " +:+ dq +:+ "Get price for AAPL" +:+ dq +:+ ")";
     "  • " +:+ dq +:+ "Analyze TSLA comprehensively" +:+ dq;
     "  • " +:+ dq +:+ "Compare AAPL, MSFT, GOOGL" +:+ dq;
     "  • " +:+ dq +:+ "Portfolio analysis: AAPL, MSFT, GOOGL, TSLA" +:+ dq;
     "";
     "System Commands:";
     "  • help     - Show this help message";
     "  • status   - Show system information";
     "  • test     - Test the system";
     "  • history  - Show query history";
     "  • clear    - Clear session history";
     "  • quit     - Exit the application";
     "";
     "Example Queries:";
     "  • " +:+ dq +:+ "What's the current price of Apple stock?" +:+ dq;
     "  • " +:+ dq +:+ "Get detailed information about Tesla" +:+ dq;
     "  • " +:+ dq +:+ "Analyze Microsoft stock comprehensively" +:+ dq;
     "  • " +:+ dq +:+ "Compare the tech giants: AAPL, MSFT, GOOGL" +:+ dq;
     "  • " +:+ dq +:+ "What's the market outlook for the next 6 months?" +:+ dq;
     "  • " +:+ dq +:+ "Analyze this portfolio: AAPL, MSFT, GOOGL, TSLA, AMZN" +:+ dq;
     "        "].
(** [StockAgentCLI.show_help] *)
Definition show_help : M session unit := print help_text.

Definition test_queries : list string :=
  ["Get the current stock price for AAPL";
   "Get detailed information about MSFT";
   "Analyze TSLA comprehensively"].

(** [v[:limit] + "..." if len(v) > limit else v]: only a text has a
    length; lengths and slices count characters. *)
Definition preview (limit : nat) (v : val) : M session string :=
  match v with
  | VStr s =>
      ret (if (limit <? len s)%nat then take limit s +:+ "..." else s)
  | _ =>
      raise (TypeError
               ("object of type '" +:+ type_name v +:+ "' has no len()"))
  end.

(** The text printed for a result that does not read as a success. *)
Definition error_text (result : dict) : string :=
  str (Py.get_or result "error" (VStr "Unknown error")).

(** [StockAgentCLI.test_system] *)
Definition test_system : M session unit :=
  do_ print (nl +:+ "🧪 TESTING SYSTEM...");
  do_ for_each (enumerate test_queries 1)
        (fun '(i, query) =>
           do_ print (nl +:+ "📝 Test " +:+ pretty i +:+ ": " +:+ query);
           do_ print (times "-" 40);
           do result <- on_system "analyze_query"
                          (StockAgentSystem.analyze_query query);
           do_ (if Py.truthy (Py.get result "success") then
                  do_ print "✅ SUCCESS";
                  do output <- getitem result "output";
                  do text <- preview 200 output;
                  print text
                else print ("❌ FAILED: " +:+ error_text result));
           await_sleep 1);
  print (nl +:+ "✅ System testing completed!").

(** [StockAgentCLI.show_history] *)
Definition show_history : M session unit :=
  do history <- on_system "get_session_history"
                  StockAgentSystem.get_session_history;
  match history with
  | [] => print "📝 No queries in history"
  | _ =>
      do_ print (nl +:+ "📝 QUERY HISTORY (" +:+ pretty (length history)
                 +:+ " queries):");
      do_ print (times "-" 50);
      for_each (enumerate (last_items 10 history) 1)
        (fun '(i, entry) =>
           do_ print (pretty i +:+ ". Query: "
                      +:+ StockAgentSystem.entry_query entry);
           do_ print ("   Success: "
                      +:+ (if Py.truthy
                                (Py.get (StockAgentSystem.entry_result entry)
                                   "success")
                           then "✅" else "❌"));
           do_ print ("   Agent: "
                      +:+ str (Py.get_or
                                 (StockAgentSystem.entry_result entry)
                                 "agent" (VStr "Unknown")));
           print "")
  end.

Definition prompt : string := nl +:+ "🤖 Enter your query: ".

(** A query that is no command: it goes to [analyze_query] and the
    result is reported. *)
Definition process_query (query : string) : M session unit :=
  do_ print (nl +:+ "🔄 Processing query...");
  do result <- on_system "analyze_query"
                 (StockAgentSystem.analyze_query query);
  if Py.truthy (Py.get result "success") then
    do_ print (nl +:+ "📋 RESULT:");
    do_ print (times "-" 30);
    do output <- getitem result "output";
    print (str output)
  else print (nl +:+ "❌ Error: " +:+ error_text result).

(** What the loop does with one line, once stripped.  The command
    words are ASCII and hold no [k], the one ASCII letter that a
    non-ASCII character lowers to, so comparing them with [Py.lower]
    of the bytes decides what Python's [lower] decides. *)
Definition dispatch (query : string) : M session unit :=
  if String.eqb query "" then ret tt
  else if bool_decide (Py.lower query ∈ ["quit"; "exit"; "q"]) then
    assign_running false
  else if String.eqb (Py.lower query) "help" then show_help
  else if String.eqb (Py.lower query) "status" then show_system_info
  else if String.eqb (Py.lower query) "test" then test_system
  else if String.eqb (Py.lower query) "history" then show_history
  else if String.eqb (Py.lower query) "clear" then
    do_ on_system "clear_session_history"
          StockAgentSystem.clear_session_history;
    print "✅ Session history cleared"
  else process_query query.

(** One turn of the [while self.running] loop of
    [run_interactive_mode]: the [try] with its two [except] clauses.
    Leaving the loop by [break] always comes with [running] set to
    false, so the turn only has to set the flag. *)
Definition turn : M session unit :=
  try_except_interrupt
    (do line <- input prompt;
     dispatch (Text.strip line))
    (do_ print (nl +:+ nl +:+ "👋 Goodbye!");
     assign_running false)
    (fun e => print (nl +:+ "❌ Error: " +:+ exn_str e)).

(** The loop itself, for at most [fuel] turns: [true] when it was left,
    [false] when it would still go on. *)
Fixpoint while_running (fuel : nat) : M session bool :=
  do go <- gets (fun s => running (cli s));
  if negb go then ret true
  else
    match fuel with
    | O => ret false
    | S fuel' => do_ turn; while_running fuel'
    end.

(** [StockAgentCLI.run_interactive_mode] *)
Definition run_interactive_mode (fuel : nat) : M session bool :=
  do_ print (nl +:+ times "=" 50);
  do_ print "🎯 INTERACTIVE MODE";
  do_ print "Type 'help' for commands, 'quit' to exit";
  do_ print (times "=" 50);
  while_running fuel.

End CLI.

End StockAgentCLI.

(** ** A concrete set of collaborators

    A small deterministic stand-in for the agents, used to run the
    facade on explicit inputs.  The world counts the calls made so far
    and doubles as the clock. *)

Module Demo.

Definition construct (role model : string) (_ : Q) (_ : list string)
    (_ : bool) (w : nat) : outcome string * nat :=
  if String.eqb model "no-such-model"
  then (Raised (Exn "RuntimeError" ("unknown model for " +:+ role)), w)
  else (Returned role, S w).

Definition orchestrate (_ : string) (query : string) (w : nat)
  : ending dict * nat :=
  if String.eqb query "" then
    (Returned (<[ "success" := VBool false ]>
               (<[ "error" := VStr "empty query" ]>
                {[ "agent" := VStr "orchestrator" ]})), S w)
  else if String.eqb query "Compare these stocks: AAPL, ???" then
    (Raised (Exn "RuntimeError" "provider unreachable"), S w)
  else
    (Returned (<[ "success" := VBool true ]>
               (<[ "output" := VStr ("Answer to: " +:+ query) ]>
                {[ "agent" := VStr "junior" ]})), S w).

#[export] Instance collaborators : Collaborators := {|
  World := nat;
  Tool := string;
  Agent := string;
  get_stock_tools key :=
    if opt_truthy key
    then ["get_stock_price"; "get_company_info"; "get_provider_news"]
    else ["get_stock_price"; "get_company_info"];
  OrchestratorAgent := construct "orchestrator";
  JuniorAgent := construct "junior";
  MasterAgent := construct "master";
  setup_agents _ _ _ w := (Returned tt, S w);
  orchestrate_analysis := orchestrate;
  loop_time w := inject_Z (Z.of_nat w)
|}.

(** A configuration with the LLM credential and no stock-data
    credential. *)
Definition config : Config.t :=
  Config.Build (Some "sk-test") "gpt-4" None None
    (7 # 10) (1 # 2) (3 # 10) 10 true.

(** The same with a model the agents refuse. *)
Definition bad_model_config : Config.t :=
  Config.Build (Some "sk-test") "no-such-model" None None
    (7 # 10) (1 # 2) (3 # 10) 10 true.

(** The same as [config] without the LLM credential. *)
Definition no_llm_config : Config.t :=
  Config.Build None "gpt-4" (Some "av-key") None
    (7 # 10) (1 # 2) (3 # 10) 10 true.

Definition boot : StockAgentSystem.process := StockAgentSystem.Process 0%nat [].

(** The system [StockAgentSystem(config)] builds, and the one it builds
    when the agents cannot be constructed. *)
Definition ready : StockAgentSystem.frame :=
  StockAgentSystem.Frame
    (StockAgentSystem.Build config
       ["get_stock_price"; "get_company_info"]
       (Some "orchestrator") (Some "junior") (Some "master") true [])
    (StockAgentSystem.Process 4%nat
       [Config.no_stock_key_warning; StockAgentSystem.initialized_message]).

Definition not_ready : StockAgentSystem.frame :=
  StockAgentSystem.Frame
    (StockAgentSystem.Build bad_model_config
       ["get_stock_price"; "get_company_info"]
       None None None false [])
    (StockAgentSystem.Process 0%nat
       [Config.no_stock_key_warning;
        "❌ Error initializing system: unknown model for orchestrator"]).

(** The agents answer questions about themselves until the call quota
    of the world is used up. *)
#[export] Instance reflection : Reflection := {|
  agent_bool _ := true;
  get_capabilities role w :=
    if (6 <? w)%nat
    then (Raised (Exn "RuntimeError" "quota exhausted"), w)
    else (Returned ["Serve " +:+ role +:+ " requests"], w);
  tool_name tool := tool;
  tool_description tool := "Tool " +:+ tool
|}.

(** [ready] after three queries. *)
Definition used : StockAgentSystem.frame :=
  snd (StockAgentSystem.analyze_query "Analyze MSFT stock"
         (snd (StockAgentSystem.analyze_query ""
                 (snd (StockAgentSystem.analyze_query
                         "Get the current price of AAPL" ready))))).

(** Sleeping leaves the call counter alone, and Ctrl-C raises
    [KeyboardInterrupt] inside [input].  No float is printed in the
    runs below; the text for one is a stand-in. *)
#[export] Instance runtime : Runtime := {|
  sleep _ w := (Returned tt, w);
  sigint w := (true, w);
  float_str q := pretty (Qnum q) +:+ "/" +:+ pretty (Zpos (Qden q))
|}.

(** The program at its prompt, on the system [ready], with [keys] still
    to be typed. *)
Definition at_prompt (keys : list StockAgentCLI.key) : StockAgentCLI.session :=
  StockAgentCLI.Session
    (StockAgentCLI.Build (Some (StockAgentSystem.self ready)) true)
    (StockAgentSystem.proc ready) keys.

End Demo.

(** ** Collaborators that misbehave

    The junior agent cannot be built for the model [no-junior], the
    orchestrator answers [ping] with a success that carries no output,
    and no agent can list its capabilities.  A Ctrl-C is taken by the
    event loop, which adds 1000 to the world: from then on whatever is
    awaited ends by the cancellation of the task. *)

Module Lab.

Definition orchestrate (a : string) (query : string) (w : nat)
  : ending dict * nat :=
  if (1000 <=? w)%nat then (Escaped (CancelledError ""), w)
  else if String.eqb query "ping" then
    (Returned (<[ "success" := VBool true ]>
               {[ "agent" := VStr "orchestrator" ]}), S w)
  else Demo.orchestrate a query w.

#[export] Instance collaborators : Collaborators := {|
  World := nat;
  Tool := string;
  Agent := string;
  get_stock_tools _ := ["get_stock_price"];
  OrchestratorAgent _ _ _ _ w := (Returned "orchestrator", S w);
  JuniorAgent model _ _ _ w :=
    if String.eqb model "no-junior"
    then (Raised (Exn "RuntimeError" "junior model unavailable"), S w)
    else (Returned "junior", S w);
  MasterAgent _ _ _ _ w := (Returned "master", S w);
  setup_agents _ _ _ w := (Returned tt, S w);
  orchestrate_analysis := orchestrate;
  loop_time w := inject_Z (Z.of_nat w)
|}.

#[export] Instance reflection : Reflection := {|
  agent_bool _ := true;
  get_capabilities _ w :=
    (Raised (Exn "NotImplementedError" "capabilities are not listed"), w);
  tool_name tool := tool;
  tool_description tool := "Tool " +:+ tool
|}.

#[export] Instance runtime : Runtime := {|
  sleep seconds w :=
    if (1000 <=? w)%nat then (Escaped (CancelledError ""), w)
    else (Returned tt, (w + Z.to_nat seconds)%nat);
  sigint w := (false, (w + 1000)%nat);
  float_str q := pretty (Qnum q) +:+ "/" +:+ pretty (Zpos (Qden q))
|}.

Definition no_junior_config : Config.t :=
  Config.Build (Some "sk-test") "no-junior" (Some "av-key") None
    (7 # 10) (1 # 2) (3 # 10) 10 true.

Definition config : Config.t :=
  Config.Build (Some "sk-test") "gpt-4" (Some "av-key") None
    (7 # 10) (1 # 2) (3 # 10) 10 true.

Definition boot : StockAgentSystem.process :=
  StockAgentSystem.Process 0%nat [].

(** The system [StockAgentSystem()] builds from [config]. *)
Definition ready : StockAgentSystem.frame :=
  StockAgentSystem.Frame
    (StockAgentSystem.Build config ["get_stock_price"]
       (Some "orchestrator") (Some "junior") (Some "master") true [])
    (StockAgentSystem.Process 4%nat [StockAgentSystem.initialized_message]).

(** [ready] once the cancellation of the task has been asked for. *)
Definition cancelling : StockAgentSystem.frame :=
  StockAgentSystem.Frame (StockAgentSystem.self ready)
    (StockAgentSystem.Process 1004%nat
       [StockAgentSystem.initialized_message]).

(** The program at its prompt on [ready]. *)
Definition at_prompt (keys : list StockAgentCLI.key) : StockAgentCLI.session :=
  StockAgentCLI.Session
    (StockAgentCLI.Build (Some (StockAgentSystem.self ready)) true)
    (StockAgentSystem.proc ready) keys.

(** The program before [initialize]. *)
Definition fresh : StockAgentCLI.session :=
  StockAgentCLI.Session StockAgentCLI.__init__ boot [].

End Lab.

(** * Properties *)

Import StockAgentSystem.

Local Open Scope py_scope.

(** ** Vocabulary *)

Section Vocabulary.

Context `{Collaborators}.



(** The frame left by a collaborator call that moved the world to [w]. *)
Definition after_call (f : frame) (w : World) : frame :=
  Frame (self f) (Process w (console (proc f))).

(** The history entry appended for [query] when the orchestrator
    returned [d] and left the world at [w]. *)
Definition recorded (f : frame) (query : string) (d : dict) (w : World)
  : frame :=
  Frame
    (set_session_history
       (session_history (self f) ++ [Entry query d (loop_time w)])
       (self f))
    (Process w (console (proc f))).

(** What reading [self.orchestrator.orchestrate_analysis] raises while
    the attribute is still [None]. *)
Definition no_orchestrator : exn :=
  AttributeError
    "'NoneType' object has no attribute 'orchestrate_analysis'".

(** The ways a call to [analyze_query] can go: the guard, the
    orchestrator unbound, the orchestrator raising an [Exception],
    returning, or ending by an exception that is no [Exception]. *)
Inductive path (query : string) (f : frame)
  : ending dict -> frame -> Prop :=
  | path_guard :
      is_initialized (self f) = false ->
      path query f (Returned not_initialized_result) f
  | path_unbound :
      is_initialized (self f) = true ->
      orchestrator (self f) = None ->
      path query f
        (Returned (analysis_failed_result no_orchestrator query)) f
  | path_raised a e w :
      is_initialized (self f) = true ->
      orchestrator (self f) = Some a ->
      orchestrate_analysis a query (world (proc f)) = (Raised e, w) ->
      path query f (Returned (analysis_failed_result e query))
        (after_call f w)
  | path_returned a d w :
      is_initialized (self f) = true ->
      orchestrator (self f) = Some a ->
      orchestrate_analysis a query (world (proc f)) = (Returned d, w) ->
      path query f (Returned d) (recorded f query d w)
  | path_escaped a e w :
      is_initialized (self f) = true ->
      orchestrator (self f) = Some a ->
      orchestrate_analysis a query (world (proc f)) = (Escaped e, w) ->
      path query f (Escaped e) (after_call f w).



(** What [validate_config] leaves on the console when the LLM
    credential is there. *)
Definition validated (cfg : Config.t) (p : process) : process :=
  if negb (opt_truthy (Config.ALPHA_VANTAGE_API_KEY cfg))
     && negb (opt_truthy (Config.FINNHUB_API_KEY cfg))
  then Process (world p) (console p ++ [Config.no_stock_key_warning])
  else p.

(** The wrappers as the specification words them: a fixed phrase with
    the argument put at its end, handed to [analyze_query]. *)
Definition expand_template (phrase argument : string) : M frame dict :=
  analyze_query (phrase +:+ argument).

(** The symbols joined with a comma and a blank, as the specification
    words it. *)
Definition comma_separated (symbols : list string) : string :=
  String.concat ", " symbols.

(** The options of the class body that have a default. *)
Definition defaulted_options : list string :=
  ["OPENAI_MODEL"; "MASTER_AGENT_TEMPERATURE"; "JUNIOR_AGENT_TEMPERATURE";
   "ORCHESTRATOR_AGENT_TEMPERATURE"; "MAX_ITERATIONS"; "VERBOSE"].

(** The spellings of [VERBOSE] that switch verbosity on: the word
    [true] in any mix of upper and lower case. *)
Definition verbose_spellings : list string :=
  ["true"; "truE"; "trUe"; "trUE"; "tRue"; "tRuE"; "tRUe"; "tRUE";
   "True"; "TruE"; "TrUe"; "TrUE"; "TRue"; "TRuE"; "TRUe"; "TRUE"].

(** The three credentials read by the class body. *)
Definition credential_options : list string :=
  ["OPENAI_API_KEY"; "ALPHA_VANTAGE_API_KEY"; "FINNHUB_API_KEY"].

(** Two runs of the class body agree: both raise the same exception, or
    both return and every option that is not a credential has the same
    value. *)
Definition same_options (a b : outcome Config.t) : Prop :=
  match a, b with
  | Returned c, Returned c' =>
      Config.OPENAI_MODEL c = Config.OPENAI_MODEL c'
      /\ Config.MASTER_AGENT_TEMPERATURE c = Config.MASTER_AGENT_TEMPERATURE c'
      /\ Config.JUNIOR_AGENT_TEMPERATURE c = Config.JUNIOR_AGENT_TEMPERATURE c'
      /\ Config.ORCHESTRATOR_AGENT_TEMPERATURE c
         = Config.ORCHESTRATOR_AGENT_TEMPERATURE c'
      /\ Config.MAX_ITERATIONS c = Config.MAX_ITERATIONS c'
      /\ Config.VERBOSE c = Config.VERBOSE c'
  | Raised e, Raised e' => e = e'
  | _, _ => False
  end.

End Vocabulary.

(** ** Vocabulary of the command line *)

Section CommandLineVocabulary.

Context `{Collaborators} `{!Reflection} `{!Runtime}.

(** The words the loop answers without the system: leaving, the help
    text and the history listing. *)
Definition leaving_words : list string := ["quit"; "exit"; "q"].


(** What the loop prints at each turn once the input has ended. *)
Definition eof_report : string :=
  nl +:+ "❌ Error: EOF when reading a line".

(** The four lines that open [run_interactive_mode]. *)
Definition banner : list string :=
  [nl +:+ times "=" 50; "🎯 INTERACTIVE MODE";
   "Type 'help' for commands, 'quit' to exit"; times "=" 50].

(** [o'] is [o] with entries for [queries] appended to its history. *)
Definition appended (queries : list string) (o o' : StockAgentSystem.t)
  : Prop :=
  config o' = config o
  /\ stock_tools o' = stock_tools o
  /\ orchestrator o' = orchestrator o
  /\ junior_agent o' = junior_agent o
  /\ master_agent o' = master_agent o
  /\ is_initialized o' = is_initialized o
  /\ exists new,
       session_history o' = (session_history o ++ new)%list
       /\ map entry_query new = queries.

(** A step that, on a program holding a system, leaves the flag
    [running] and the pending input alone and appends to the history
    entries for some [allowed] list of queries, whether it returns or
    raises. *)
Definition adds (allowed : list string -> Prop) {A}
    (m : M StockAgentCLI.session A) : Prop :=
  forall s o,
    StockAgentCLI.system (StockAgentCLI.cli s) = Some o ->
    exists o' queries,
      StockAgentCLI.system (StockAgentCLI.cli (snd (m s))) = Some o'
      /\ StockAgentCLI.running (StockAgentCLI.cli (snd (m s)))
         = StockAgentCLI.running (StockAgentCLI.cli s)
      /\ StockAgentCLI.stdin (snd (m s)) = StockAgentCLI.stdin s
      /\ allowed queries
      /\ appended queries o o'.

(** The lists of queries that are [queries] with some left out. *)
Definition within (queries : list string) : list string -> Prop :=
  fun chosen => chosen `sublist_of` queries.

(** The four lines [show_history] prints for the entry numbered [i]. *)
Definition entry_lines (i : nat) (entry : StockAgentSystem.entry)
  : list string :=
  [pretty i +:+ ". Query: " +:+ entry_query entry;
   "   Success: "
   +:+ (if Py.truthy (Py.get (entry_result entry) "success")
        then "✅" else "❌");
   "   Agent: "
   +:+ StockAgentCLI.str
         (Py.get_or (entry_result entry) "agent" (VStr "Unknown"));
   ""].

Fixpoint entries_lines (start : nat) (entries : list StockAgentSystem.entry)
  : list string :=
  match entries with
  | [] => []
  | entry :: rest =>
      (entry_lines start entry ++ entries_lines (S start) rest)%list
  end.

(** Everything [show_history] prints for a history. *)
Definition history_report (history : list StockAgentSystem.entry)
  : list string :=
  match history with
  | [] => ["📝 No queries in history"]
  | _ =>
      ([nl +:+ "📝 QUERY HISTORY (" +:+ pretty (length history)
        +:+ " queries):";
        times "-" 50]
       ++ entries_lines 1 (last_items 10 history))%list
  end.

(** The program once [input] has written the prompt and taken a key:
    [rest] is what remains to be typed. *)
Definition prompted (s : StockAgentCLI.session) (rest : list StockAgentCLI.key)
  : StockAgentCLI.session :=
  StockAgentCLI.Session (StockAgentCLI.cli s)
    (Process (world (StockAgentCLI.terminal s))
       (console (StockAgentCLI.terminal s) ++ [StockAgentCLI.prompt]))
    rest.


(** The program in the world [w], with [rest] still to be typed. *)
Definition moved (s : StockAgentCLI.session) (w : World)
    (rest : list StockAgentCLI.key) : StockAgentCLI.session :=
  StockAgentCLI.Session (StockAgentCLI.cli s)
    (Process w (console (StockAgentCLI.terminal s))) rest.

(** A computation that no exception outside [Exception] leaves. *)
Definition stays {S A} (m : M S A) : Prop :=
  forall st e st', m st <> (Escaped e, st').

(** The program with [lines] printed. *)
Definition printed (lines : list string) (s : StockAgentCLI.session)
  : StockAgentCLI.session :=
  StockAgentCLI.Session (StockAgentCLI.cli s)
    (Process (world (StockAgentCLI.terminal s))
       (console (StockAgentCLI.terminal s) ++ lines))
    (StockAgentCLI.stdin s).

(** The program with the flag [running] cleared. *)
Definition stopped (s : StockAgentCLI.session) : StockAgentCLI.session :=
  StockAgentCLI.Session
    (StockAgentCLI.Build (StockAgentCLI.system (StockAgentCLI.cli s)) false)
    (StockAgentCLI.terminal s) (StockAgentCLI.stdin s).




(** The program after a call on its system left the frame [f]. *)
Definition resumed (s : StockAgentCLI.session) (f : frame)
  : StockAgentCLI.session :=
  StockAgentCLI.Session
    (StockAgentCLI.Build (Some (self f))
       (StockAgentCLI.running (StockAgentCLI.cli s)))
    (proc f) (StockAgentCLI.stdin s).

(** The two lines that open [initialize], and the lines it prints when
    the system is ready and when an exception [e] was caught. *)
Definition opening : list string :=
  ["🚀 Initializing AI Stock Analysis Agent System..."; times "=" 50].

Definition ready_line : string := "✅ System initialized successfully!".

Definition initialization_error (e : exn) : string :=
  "❌ Error during initialization: " +:+ exn_str e.

End CommandLineVocabulary.

(** ** Texts *)

Lemma join_concat (sep : string) (parts : list string) :
  Py.join sep parts = String.concat sep parts.
Proof.
  induction parts as [|p rest IH]; [reflexivity|].
  destruct rest as [|p' rest]; [reflexivity|].
  change (p +:+ sep +:+ Py.join sep (p' :: rest)
          = p +:+ sep +:+ String.concat sep (p' :: rest)).
  now rewrite IH.
Qed.

(** ** The paths through [analyze_query] *)

Section Paths.

Context `{Collaborators}.

Implicit Types (f : frame) (query : string) (d : dict) (e : exn).

Lemma guard_path f query :
  is_initialized (self f) = false ->
  analyze_query query f = (Returned not_initialized_result, f).
Proof.
  intros Hinit. unfold analyze_query, bind, gets.
  now rewrite Hinit.
Qed.

Lemma returned_path f query (a : Agent) d (w : World) :
  is_initialized (self f) = true ->
  orchestrator (self f) = Some a ->
  orchestrate_analysis a query (world (proc f)) = (Returned d, w) ->
  analyze_query query f = (Returned d, recorded f query d w).
Proof.
  intros Hinit Horch Hcall.
  unfold analyze_query, bind, gets, try_except, await, attr_of, assign,
    modify, ret.
  rewrite Hinit. simpl. rewrite Horch. simpl. rewrite Hcall. reflexivity.
Qed.

Lemma raised_path f query (a : Agent) e (w : World) :
  is_initialized (self f) = true ->
  orchestrator (self f) = Some a ->
  orchestrate_analysis a query (world (proc f)) = (Raised e, w) ->
  analyze_query query f
  = (Returned (analysis_failed_result e query), after_call f w).
Proof.
  intros Hinit Horch Hcall.
  unfold analyze_query, bind, gets, try_except, await, attr_of, assign,
    modify, ret.
  rewrite Hinit. simpl. rewrite Horch. simpl. rewrite Hcall. reflexivity.
Qed.

Lemma unbound_path f query :
  is_initialized (self f) = true ->
  orchestrator (self f) = None ->
  analyze_query query f
  = (Returned (analysis_failed_result no_orchestrator query), f).
Proof.
  intros Hinit Horch.
  unfold analyze_query, bind, gets, try_except, extern, attr_of, assign,
    modify, ret, raise.
  rewrite Hinit. simpl. rewrite Horch. simpl. reflexivity.
Qed.

Lemma escaped_path f query (a : Agent) e (w : World) :
  is_initialized (self f) = true ->
  orchestrator (self f) = Some a ->
  orchestrate_analysis a query (world (proc f)) = (Escaped e, w) ->
  analyze_query query f = (Escaped e, after_call f w).
Proof.
  intros Hinit Horch Hcall.
  unfold analyze_query, bind, gets, try_except, await, attr_of, assign,
    modify, ret.
  rewrite Hinit. simpl. rewrite Horch. simpl. rewrite Hcall. reflexivity.
Qed.

(** Every call goes along one of the paths. *)
Lemma analyze_query_path query f :
  exists r f', analyze_query query f = (r, f') /\ path query f r f'.
Proof.
  destruct (is_initialized (self f)) eqn:Hinit.
  - destruct (orchestrator (self f)) as [a|] eqn:Horch.
    + destruct (orchestrate_analysis a query (world (proc f)))
        as [[[d|e]|e] w] eqn:Hcall.
      * exists (Returned d), (recorded f query d w). split.
        -- now apply returned_path with a.
        -- now apply path_returned with a.
      * exists (Returned (analysis_failed_result e query)), (after_call f w).
        split.
        -- now apply raised_path with a.
        -- now apply path_raised with a.
      * exists (Escaped e), (after_call f w). split.
        -- now apply escaped_path with a.
        -- now apply path_escaped with a.
    + exists (Returned (analysis_failed_result no_orchestrator query)), f.
      split.
      * now apply unbound_path.
      * now apply path_unbound.
  - exists (Returned not_initialized_result), f. split.
    + now apply guard_path.
    + now apply path_guard.
Qed.

Lemma not_initialized_lookup :
  not_initialized_result !! "success" = None
  /\ not_initialized_result !! "error" = Some (VStr "System not initialized").
Proof. split; reflexivity. Qed.


End Paths.

(** ** The result contract of the entry points *)

Section Contract.

Context `{Collaborators}.




End Contract.




(** C2, as amended.  When [is_initialized] is false, [analyze_query]
    returns exactly [{"error": "System not initialized"}], a dictionary
    with no [success] key, and leaves the object and the process as they
    were; in particular no history entry is appended. *)
Theorem not_initialized_result_exact `{Collaborators}
    (f : frame) (query : string) :
  is_initialized (self f) = false ->
  analyze_query query f
  = (Returned {[ "error" := VStr "System not initialized" ]}, f)
  /\ session_history (self (snd (analyze_query query f)))
     = session_history (self f)
  /\ ({[ "error" := VStr "System not initialized" ]} : dict) !! "success"
     = None.
Proof.
  intros Hinit. rewrite (guard_path f query Hinit). now repeat split.
Qed.

Lemma not_initialized_result_exact_witness :
  is_initialized (self Demo.not_ready) = false
  /\ analyze_query "Get detailed information about MSFT" Demo.not_ready
     = (Returned {[ "error" := VStr "System not initialized" ]},
        Demo.not_ready).
Proof.
  split; [reflexivity|].
  exact (proj1 (not_initialized_result_exact Demo.not_ready
                  "Get detailed information about MSFT" eq_refl)).
Defined.

(** C2, as first stated, fails: the result of the guard is not the
    dictionary [{"success": False, "error": "System not initialized"}]. *)
Lemma guard_result_is_not_success_false :
  fst (analyze_query "Get detailed information about MSFT" Demo.not_ready)
  <> Returned (<[ "success" := VBool false ]>
               {[ "error" := VStr "System not initialized" ]}).
Proof.
  intros Heq.
  apply (f_equal (fun o : ending dict =>
                    match o with
                    | Ended (Returned d) => d !! "success"
                    | _ => None
                    end)) in Heq.
  discriminate Heq.
Qed.



(** C3, as first stated, fails: a call can pass the guard and reach the
    orchestrator and still leave the history as long as it was, namely
    when the orchestrator raises instead of returning a result. *)
Lemma raising_call_appends_nothing :
  is_initialized (self Demo.ready) = true
  /\ orchestrator (self Demo.ready) = Some "orchestrator"
  /\ @orchestrate_analysis Demo.collaborators "orchestrator"
       "Compare these stocks: AAPL, ???" (world (proc Demo.ready))
     = (Raised (Exn "RuntimeError" "provider unreachable"), 5%nat)
  /\ length (session_history
               (self (snd (analyze_query "Compare these stocks: AAPL, ???"
                             Demo.ready))))
     = length (session_history (self Demo.ready))
  /\ length (session_history
               (self (snd (analyze_query "Compare these stocks: AAPL, ???"
                             Demo.ready))))
     <> S (length (session_history (self Demo.ready))).
Proof.
  repeat split; try reflexivity. vm_compute. discriminate.
Qed.



(** C4, as first stated, fails: when the task is cancelled while the
    orchestrator is awaited, the [asyncio.CancelledError] is no
    [Exception], [except Exception] lets it through, and it reaches the
    caller of [analyze_query], which returns no result. *)
Lemma cancellation_escapes_analyze_query :
  is_initialized (self Lab.cancelling) = true
  /\ orchestrator (self Lab.cancelling) = Some "orchestrator"
  /\ @orchestrate_analysis Lab.collaborators "orchestrator" "ping"
       (world (proc Lab.cancelling))
     = (Escaped (CancelledError ""), 1004%nat)
  /\ @analyze_query Lab.collaborators "ping" Lab.cancelling
     = (Escaped (CancelledError ""), Lab.cancelling)
  /\ ~ (exists d f',
          @analyze_query Lab.collaborators "ping" Lab.cancelling
          = (Returned d, f')).
Proof.
  do 3 (split; [reflexivity|]).
  assert (Hrun : @analyze_query Lab.collaborators "ping" Lab.cancelling
                 = (Escaped (CancelledError ""), Lab.cancelling))
    by reflexivity.
  split; [exact Hrun|].
  intros (d & f' & Hrun'). rewrite Hrun in Hrun'. discriminate Hrun'.
Qed.

(** C10.  When the orchestrator call inside [analyze_query] raises, the
    caught-exception branch returns its error result without touching
    the object: the session history, like every other attribute, is
    exactly what it was before the call. *)
Theorem exception_leaves_history_unchanged `{Collaborators}
    (f : frame) (query : string) (a : Agent) (e : exn) (w : World) :
  is_initialized (self f) = true ->
  orchestrator (self f) = Some a ->
  orchestrate_analysis a query (world (proc f)) = (Raised e, w) ->
  exists f',
    analyze_query query f = (Returned (analysis_failed_result e query), f')
    /\ session_history (self f') = session_history (self f)
    /\ self f' = self f.
Proof.
  intros Hinit Horch Hcall. exists (after_call f w).
  split; [now apply raised_path with a|]. now split.
Qed.

Lemma exception_leaves_history_unchanged_witness :
  exists d f',
    analyze_query "Compare these stocks: AAPL, ???" Demo.ready
    = (Returned d, f')
    /\ session_history (self f') = session_history (self Demo.ready).
Proof.
  destruct (exception_leaves_history_unchanged Demo.ready
              "Compare these stocks: AAPL, ???" "orchestrator"
              (Exn "RuntimeError" "provider unreachable") 5%nat
              eq_refl eq_refl eq_refl) as (f' & Hrun & Hhist & _).
  eexists. exists f'. split; [exact Hrun|exact Hhist].
Defined.

(** ** Construction *)

Section Construction.

Context `{Collaborators}.

Ltac split_call call :=
  let r := fresh "r" in
  let w := fresh "w" in
  destruct call as [[r|r] w]; simpl.

Ltac step_call :=
  match goal with
  | |- context [OrchestratorAgent ?m ?t ?l ?v ?w] =>
      split_call (OrchestratorAgent m t l v w)
  | |- context [JuniorAgent ?m ?t ?l ?v ?w] =>
      split_call (JuniorAgent m t l v w)
  | |- context [MasterAgent ?m ?t ?l ?v ?w] =>
      split_call (MasterAgent m t l v w)
  | |- context [setup_agents ?a ?l ?l' ?w] =>
      split_call (setup_agents a l l' w)
  end.

(** [_initialize_system] never raises: it prints one line, and touches
    neither the configuration, the tools nor the history. *)
Lemma initialize_system_returns (f : frame) :
  exists f' line,
    _initialize_system f = (Returned tt, f')
    /\ config (self f') = config (self f)
    /\ stock_tools (self f') = stock_tools (self f)
    /\ session_history (self f') = session_history (self f)
    /\ console (proc f') = (console (proc f) ++ [line])%list.
Proof.
  unfold _initialize_system, try_except, bind, gets, extern, assign,
    modify, print, ret, raise, attr_of.
  simpl.
  repeat step_call;
    eexists; eexists; (split; [reflexivity|]); simpl; now repeat split.
Qed.

(** When [_initialize_system] sets the flag, the three agents are
    bound. *)
Lemma initialize_system_binds (f : frame) :
  let f' := snd (_initialize_system f) in
  is_initialized (self f') = true ->
  is_Some (orchestrator (self f'))
  /\ is_Some (junior_agent (self f'))
  /\ is_Some (master_agent (self f')).
Proof.
  unfold _initialize_system, try_except, bind, gets, extern, assign,
    modify, print, ret, raise, attr_of.
  simpl.
  repeat step_call; intros Hflag; try discriminate Hflag;
    repeat split; eexists; reflexivity.
Qed.

End Construction.

Section Startup.

Context `{Collaborators}.

Lemma validate_config_missing (cfg : Config.t) (p : process) :
  opt_truthy (Config.OPENAI_API_KEY cfg) = false ->
  Config.validate_config cfg p
  = (Raised (ValueError Config.openai_required), p).
Proof. intros Hkey. unfold Config.validate_config. now rewrite Hkey. Qed.

Lemma validate_config_present (cfg : Config.t) (p : process) :
  opt_truthy (Config.OPENAI_API_KEY cfg) = true ->
  Config.validate_config cfg p = (Returned tt, validated cfg p).
Proof.
  intros Hkey. unfold Config.validate_config, validated. rewrite Hkey.
  simpl. now destruct (_ && _).
Qed.

(** With the LLM credential, construction returns an object bound to
    the tool set of the preferred stock-data credential. *)
Lemma init_present (cfg : Config.t) (p : process) :
  opt_truthy (Config.OPENAI_API_KEY cfg) = true ->
  exists sys p' line,
    __init__ cfg p = (Returned sys, p')
    /\ config sys = cfg
    /\ stock_tools sys = get_stock_tools (Config.get_stock_api_key cfg)
    /\ session_history sys = []
    /\ console p' = (console (validated cfg p) ++ [line])%list.
Proof.
  intros Hkey. unfold __init__.
  rewrite (validate_config_present cfg p Hkey).
  set (blank := Build cfg _ None None None false []).
  destruct (initialize_system_returns (Frame blank (validated cfg p)))
    as (f' & line & Hrun & Hcfg & Htools & Hhist & Hout).
  rewrite Hrun. exists (self f'), (proc f'), line.
  split; [reflexivity|]. now repeat split.
Qed.

End Startup.

(** C5.  [StockAgentSystem(...)] raises exactly when [OPENAI_API_KEY]
    is missing (unset or empty).  It then raises the [ValueError] of
    [validate_config] at once: the world and the console are untouched,
    so no agent was built.  With the LLM credential present and both
    stock-data credentials missing, construction returns an object; the
    console gained the fallback warning followed by one line of
    [_initialize_system], and the tool set is the one bound to no
    credential. *)
Theorem construction_fails_iff_no_llm_credential `{Collaborators}
    (cfg : Config.t) (p : process) :
  ((exists e p', __init__ cfg p = (Raised e, p'))
   <-> opt_truthy (Config.OPENAI_API_KEY cfg) = false)
  /\ (opt_truthy (Config.OPENAI_API_KEY cfg) = false ->
      __init__ cfg p = (Raised (ValueError Config.openai_required), p))
  /\ (opt_truthy (Config.OPENAI_API_KEY cfg) = true ->
      opt_truthy (Config.ALPHA_VANTAGE_API_KEY cfg) = false ->
      opt_truthy (Config.FINNHUB_API_KEY cfg) = false ->
      exists sys p' line,
        __init__ cfg p = (Returned sys, p')
        /\ console p'
           = (console p ++ [Config.no_stock_key_warning; line])%list
        /\ opt_truthy (Config.get_stock_api_key cfg) = false
        /\ stock_tools sys
           = get_stock_tools (Config.get_stock_api_key cfg)).
Proof.
  assert (Hmissing :
    opt_truthy (Config.OPENAI_API_KEY cfg) = false ->
    __init__ cfg p = (Raised (ValueError Config.openai_required), p)).
  { intros Hkey. unfold __init__.
    now rewrite (validate_config_missing cfg p Hkey). }
  split; [|split].
  - split.
    + intros (e & p' & Hraise).
      destruct (opt_truthy (Config.OPENAI_API_KEY cfg)) eqn:Hkey;
        [|reflexivity].
      destruct (init_present cfg p Hkey) as (sys & p'' & line & Hrun & _).
      rewrite Hrun in Hraise. discriminate Hraise.
    + intros Hkey. eexists. eexists. now apply Hmissing.
  - exact Hmissing.
  - intros Hkey Hav Hfh.
    destruct (init_present cfg p Hkey)
      as (sys & p' & line & Hrun & _ & Htools & _ & Hout).
    exists sys, p', line. split; [exact Hrun|]. split; [|split].
    + rewrite Hout. unfold validated. rewrite Hav, Hfh. simpl.
      now rewrite <- app_assoc.
    + unfold Config.get_stock_api_key, Py.or_. now rewrite Hav.
    + exact Htools.
Qed.

Lemma construction_fails_iff_no_llm_credential_witness :
  __init__ Demo.no_llm_config Demo.boot
  = (Raised (ValueError Config.openai_required), Demo.boot)
  /\ exists sys p' line,
       __init__ Demo.config Demo.boot = (Returned sys, p')
       /\ console p' = [Config.no_stock_key_warning; line].
Proof.
  split.
  - exact (proj1 (proj2 (construction_fails_iff_no_llm_credential
                           Demo.no_llm_config Demo.boot)) eq_refl).
  - destruct (proj2 (proj2 (construction_fails_iff_no_llm_credential
                              Demo.config Demo.boot))
                eq_refl eq_refl eq_refl)
      as (sys & p' & line & Hrun & Hout & _).
    exists sys, p', line. split; [exact Hrun|exact Hout].
Defined.

(** C9.  [get_stock_api_key] prefers [ALPHA_VANTAGE_API_KEY], falls
    back on [FINNHUB_API_KEY] and otherwise yields no credential; and
    [StockAgentSystem(...)] binds the tool set to that choice, once,
    while the object is built. *)
Theorem stock_api_key_preference `{Collaborators} (cfg : Config.t) :
  (opt_truthy (Config.ALPHA_VANTAGE_API_KEY cfg) = true ->
   Config.get_stock_api_key cfg = Config.ALPHA_VANTAGE_API_KEY cfg)
  /\ (opt_truthy (Config.ALPHA_VANTAGE_API_KEY cfg) = false ->
      opt_truthy (Config.FINNHUB_API_KEY cfg) = true ->
      Config.get_stock_api_key cfg = Config.FINNHUB_API_KEY cfg)
  /\ (opt_truthy (Config.ALPHA_VANTAGE_API_KEY cfg) = false ->
      opt_truthy (Config.FINNHUB_API_KEY cfg) = false ->
      opt_truthy (Config.get_stock_api_key cfg) = false)
  /\ (forall p sys p',
        __init__ cfg p = (Returned sys, p') ->
        stock_tools sys = get_stock_tools (Config.get_stock_api_key cfg))
  /\ (forall query f d f',
        analyze_query query f = (Returned d, f') ->
        stock_tools (self f') = stock_tools (self f)).
Proof.
  unfold Config.get_stock_api_key, Py.or_.
  split; [|split; [|split; [|split]]].
  - now intros ->.
  - now intros ->.
  - now intros ->.
  - intros p sys p' Hrun.
    destruct (opt_truthy (Config.OPENAI_API_KEY cfg)) eqn:Hkey.
    + destruct (init_present cfg p Hkey)
        as (sys' & p'' & line & Hrun' & _ & Htools & _).
      rewrite Hrun' in Hrun. injection Hrun as <- _. exact Htools.
    + unfold __init__ in Hrun.
      rewrite (validate_config_missing cfg p Hkey) in Hrun.
      discriminate Hrun.
  - intros query f d f' Hrun.
    destruct (analyze_query_path query f) as (d0 & f0 & Hrun0 & Hpath).
    rewrite Hrun0 in Hrun. injection Hrun as _ <-.
    now destruct Hpath.
Qed.

Lemma stock_api_key_preference_witness :
  Config.get_stock_api_key Demo.no_llm_config = Some "av-key"
  /\ Config.get_stock_api_key
       (Config.Build (Some "sk-test") "gpt-4" (Some "") (Some "fh-key")
          (7 # 10) (1 # 2) (3 # 10) 10 true)
     = Some "fh-key"
  /\ opt_truthy (Config.get_stock_api_key Demo.config) = false
  /\ stock_tools (self Demo.ready)
     = @get_stock_tools Demo.collaborators
         (Config.get_stock_api_key Demo.config).
Proof.
  split; [|split; [|split]].
  - exact (proj1 (@stock_api_key_preference Demo.collaborators Demo.no_llm_config) eq_refl).
  - exact (proj1 (proj2 (@stock_api_key_preference Demo.collaborators
                           (Config.Build (Some "sk-test") "gpt-4" (Some "")
                              (Some "fh-key") (7 # 10) (1 # 2) (3 # 10)
                              10 true)))
             eq_refl eq_refl).
  - exact (proj1 (proj2 (proj2 (@stock_api_key_preference Demo.collaborators Demo.config)))
             eq_refl eq_refl).
  - exact (proj1 (proj2 (proj2 (proj2
             (@stock_api_key_preference Demo.collaborators Demo.config))))
             Demo.boot (self Demo.ready) (proc Demo.ready) eq_refl).
Defined.

(** ** The convenience wrappers *)

(** C6.  Each convenience wrapper is the template expansion of its
    argument handed to [analyze_query]: same result, same state
    afterwards, nothing else done.  [compare_stocks] and
    [portfolio_analysis] first join the symbols with [", "]. *)
Theorem wrappers_are_template_expansions `{Collaborators}
    (symbol topic : string) (symbols : list string) (f : frame) :
  get_stock_price symbol f
  = expand_template "Get the current stock price for " symbol f
  /\ get_stock_info symbol f
     = expand_template "Get detailed information about " symbol f
  /\ analyze_stock symbol f
     = expand_template "Perform comprehensive analysis of " symbol f
  /\ compare_stocks symbols f
     = expand_template "Compare these stocks: " (comma_separated symbols) f
  /\ portfolio_analysis symbols f
     = expand_template "Analyze this portfolio: "
         (comma_separated symbols) f
  /\ market_research topic f
     = expand_template "Research the market for: " topic f.
Proof.
  unfold get_stock_price, get_stock_info, analyze_stock, compare_stocks,
    portfolio_analysis, market_research, expand_template, comma_separated.
  rewrite join_concat. now repeat split.
Qed.

Example compare_stocks_query :
  compare_stocks ["AAPL"; "MSFT"; "GOOGL"] Demo.ready
  = analyze_query "Compare these stocks: AAPL, MSFT, GOOGL" Demo.ready.
Proof. reflexivity. Qed.

Example portfolio_of_none_query :
  portfolio_analysis [] Demo.ready
  = analyze_query "Analyze this portfolio: " Demo.ready.
Proof. reflexivity. Qed.

(** [test_system] on a system that is not initialized: the missing
    [success] key makes [system_working] false. *)
Example test_system_not_ready :
  fst (test_system Demo.not_ready)
  = Returned ("Get the current stock price for AAPL",
              not_initialized_result, VBool false).
Proof. reflexivity. Qed.

(** ** The session history *)

(** C7.  After [clear_session_history], [get_session_history] returns
    the empty list, and clearing again changes nothing: the state after
    two clears is the state after one. *)
Theorem clear_session_history_idempotent `{Collaborators} (f : frame) :
  let cleared := snd (clear_session_history f) in
  fst (clear_session_history f) = Returned tt
  /\ get_session_history cleared = (Returned [], cleared)
  /\ clear_session_history cleared = (Returned tt, cleared).
Proof.
  destruct f as [[cfg tools o j m ready history] p].
  now repeat split.
Qed.

(** ** The defaults of the configuration *)

(** C8, as amended.  When the options with a default are unset, the
    class body yields: orchestrator temperature 0.3 (master 0.7, junior
    0.5), at most 10 iterations, verbosity on and the model ["gpt-4"];
    the three credentials are read as they are. *)
Theorem config_defaults (env : Config.environ) :
  (forall name, In name defaulted_options -> Config.getenv env name = None) ->
  Config.class_body env
  = Returned
      (Config.Build
         (Config.getenv env "OPENAI_API_KEY")
         "gpt-4"
         (Config.getenv env "ALPHA_VANTAGE_API_KEY")
         (Config.getenv env "FINNHUB_API_KEY")
         (7 # 10) (1 # 2) (3 # 10) 10 true).
Proof.
  intros Hunset. unfold Config.class_body, Config.getenv_or.
  unfold Config.getenv in Hunset.
  rewrite !Hunset by (unfold defaulted_options; simpl; tauto).
  reflexivity.
Qed.

Lemma config_defaults_witness :
  Config.class_body {[ "OPENAI_API_KEY" := "sk-test" ]}
  = Returned Demo.config.
Proof.
  rewrite (config_defaults {[ "OPENAI_API_KEY" := "sk-test" ]}).
  - reflexivity.
  - intros name Hin. unfold Config.getenv.
    apply lookup_singleton_ne.
    simpl in Hin.
    repeat (destruct Hin as [<-|Hin]; [discriminate|]).
    contradiction.
Defined.

(** C8, as first stated, fails: with nothing set, the orchestrator
    temperature is 0.3, which is not 0.7 (that is the master's). *)
Lemma orchestrator_default_is_not_0_7 :
  exists cfg,
    Config.class_body ∅ = Returned cfg
    /\ Config.ORCHESTRATOR_AGENT_TEMPERATURE cfg = (3 # 10)
    /\ ~ (Config.ORCHESTRATOR_AGENT_TEMPERATURE cfg == 7 # 10)%Q.
Proof.
  eexists. split; [reflexivity|]. split; [reflexivity|].
  simpl. intros Heq. discriminate Heq.
Qed.

(** ** Introspection *)

Section Introspection.

Context `{Collaborators} `{!Reflection}.

Lemma append_cons (c : ascii) (s t : string) :
  String c s +:+ t = String c (s +:+ t).
Proof. reflexivity. Qed.

Lemma length_append (s t : string) :
  String.length (s +:+ t) = (String.length s + String.length t)%nat.
Proof.
  induction s as [|c s IH]; [reflexivity|].
  rewrite append_cons. simpl. now rewrite IH.
Qed.

Lemma append_cancel_r (s1 s2 t : string) : s1 +:+ t = s2 +:+ t -> s1 = s2.
Proof.
  revert s2. induction s1 as [|c s1 IH]; intros [|c2 s2] Heq.
  - reflexivity.
  - exfalso. apply (f_equal String.length) in Heq.
    rewrite append_cons in Heq. simpl in Heq.
    rewrite !length_append in Heq. simpl in Heq. lia.
  - exfalso. apply (f_equal String.length) in Heq.
    rewrite append_cons in Heq. simpl in Heq.
    rewrite !length_append in Heq. simpl in Heq. lia.
  - rewrite !append_cons in Heq. injection Heq as -> Heq.
    f_equal. now apply IH.
Qed.

Lemma capabilities_of_self (a : option Agent) (f : frame) :
  self (snd (capabilities_of a f)) = self f
  /\ console (proc (snd (capabilities_of a f))) = console (proc f).
Proof.
  unfold capabilities_of. destruct (attr_bool a); [|now split].
  destruct a as [ag|]; [|now split].
  unfold bind, attr_of, extern, ret. simpl.
  now destruct (get_capabilities ag (world (proc f))) as [[l|e] w].
Qed.

End Introspection.

(** X1.  The counts [get_system_status] reports are the lengths of what
    [get_available_tools] and [get_session_history] return, and its
    [initialized] entry is the flag the query guard tests.  The three
    methods answer on any system, initialized or not, and change
    nothing. *)
Theorem status_agrees_with_accessors `{Collaborators} `{!Reflection}
    (f : frame) :
  exists st tools history,
    get_system_status f = (Returned st, f)
    /\ get_available_tools f = (Returned tools, f)
    /\ get_session_history f = (Returned history, f)
    /\ status_tools st = length tools
    /\ status_session_history_length st = length history
    /\ status_initialized st = is_initialized (self f).
Proof.
  eexists. eexists. eexists.
  split; [reflexivity|]. split; [reflexivity|]. split; [reflexivity|].
  simpl. now rewrite length_map.
Qed.

(** X2.  A query, however it ends, changes nothing the status reports
    except the length of the history, which stays or grows by one; in
    particular a query never initializes a system nor makes an
    initialized one uninitialized.  After [clear_session_history] the
    status reports no query. *)
Theorem status_after_query `{Collaborators} `{!Reflection}
    (query : string) (f : frame) :
  exists st st' st0,
    fst (get_system_status f) = Returned st
    /\ fst (get_system_status (snd (analyze_query query f))) = Returned st'
    /\ status_initialized st' = status_initialized st
    /\ status_of_config st' = status_of_config st
    /\ status_of_agents st' = status_of_agents st
    /\ status_tools st' = status_tools st
    /\ (status_session_history_length st'
        = status_session_history_length st
        \/ status_session_history_length st'
           = S (status_session_history_length st))
    /\ fst (get_system_status
              (snd (clear_session_history (snd (analyze_query query f)))))
       = Returned st0
    /\ status_session_history_length st0 = 0%nat.
Proof.
  destruct (analyze_query_path query f) as (r & f' & Hrun & Hpath).
  rewrite Hrun. eexists. eexists. eexists.
  split; [reflexivity|]. split; [reflexivity|].
  destruct Hpath; simpl; repeat split; auto.
  right. rewrite length_app. simpl. lia.
Qed.

(** X3.  When [get_agent_capabilities] returns, the object is as it was
    and nothing was printed.  On a system that is not initialized the
    answer is the empty dictionary and no agent is consulted; on an
    initialized one it has exactly the keys [orchestrator], [junior] and
    [master], in that order, the first with the four fixed entries, and
    an agent that is unbound or falsy contributes the empty list. *)
Theorem capabilities_shape `{Collaborators} `{!Reflection}
    (f f' : frame) (caps : list (string * list string)) :
  get_agent_capabilities f = (Returned caps, f') ->
  self f' = self f
  /\ console (proc f') = console (proc f)
  /\ (is_initialized (self f) = false -> caps = [] /\ f' = f)
  /\ (is_initialized (self f) = true ->
      exists junior master,
        caps = [("orchestrator", orchestrator_capabilities);
                ("junior", junior); ("master", master)]
        /\ (attr_bool (junior_agent (self f)) = false -> junior = [])
        /\ (attr_bool (master_agent (self f)) = false -> master = [])).
Proof.
  unfold get_agent_capabilities, bind, gets. simpl.
  destruct (is_initialized (self f)) eqn:Hinit; simpl.
  - destruct (capabilities_of_self (junior_agent (self f)) f) as [Hs1 Hc1].
    destruct (capabilities_of (junior_agent (self f)) f)
      as [[[junior|e]|e] f1] eqn:Hj; [|discriminate|discriminate].
    simpl in Hs1, Hc1.
    destruct (capabilities_of_self (master_agent (self f1)) f1)
      as [Hs2 Hc2].
    destruct (capabilities_of (master_agent (self f1)) f1)
      as [[[master|e]|e] f2] eqn:Hm; [|discriminate|discriminate].
    simpl in Hs2, Hc2. unfold ret. intros Heq.
    injection Heq as <- <-.
    split; [congruence|]. split; [congruence|].
    split; [discriminate|]. intros _. exists junior, master.
    split; [reflexivity|]. split; intros Hfalsy.
    + unfold capabilities_of in Hj. rewrite Hfalsy in Hj.
      unfold ret in Hj. congruence.
    + unfold capabilities_of in Hm. rewrite Hs1, Hfalsy in Hm.
      unfold ret in Hm. congruence.
  - unfold ret. intros Heq. injection Heq as <- <-.
    split; [reflexivity|]. split; [reflexivity|].
    split; [now split|discriminate].
Qed.

Lemma capabilities_shape_witness :
  exists caps,
    @get_agent_capabilities Demo.collaborators Demo.reflection Demo.ready
    = (Returned caps, Demo.ready)
    /\ map fst caps = ["orchestrator"; "junior"; "master"].
Proof.
  destruct (@capabilities_shape Demo.collaborators Demo.reflection
              Demo.ready Demo.ready _ eq_refl)
    as (_ & _ & _ & Hshape).
  destruct (Hshape eq_refl) as (junior & master & Hcaps & _).
  eexists. split; [reflexivity|]. reflexivity.
Defined.

(** X4.  [get_agent_capabilities] has no handler of its own: on an
    initialized system whose junior agent is bound and truthy, an
    exception raised by that agent's [get_capabilities] leaves the
    method as it is, unlike an exception of the orchestrator inside
    [analyze_query]. *)
Theorem capabilities_exception_escapes `{Collaborators} `{!Reflection}
    (f : frame) (a : Agent) (e : exn) (w : World) :
  is_initialized (self f) = true ->
  junior_agent (self f) = Some a ->
  agent_bool a = true ->
  get_capabilities a (world (proc f)) = (Raised e, w) ->
  get_agent_capabilities f = (Raised e, after_call f w).
Proof.
  intros Hinit Hj Hb Hcall.
  unfold get_agent_capabilities, bind, gets. rewrite Hinit. simpl.
  rewrite Hj. unfold capabilities_of at 1. simpl. rewrite Hb.
  unfold bind, attr_of, extern, ret. simpl. now rewrite Hcall.
Qed.

Lemma capabilities_exception_escapes_witness :
  is_initialized (self Demo.used) = true
  /\ @get_agent_capabilities Demo.collaborators Demo.reflection Demo.used
     = (Raised (Exn "RuntimeError" "quota exhausted"), Demo.used).
Proof.
  split; [reflexivity|].
  exact (@capabilities_exception_escapes Demo.collaborators
           Demo.reflection Demo.used "junior"
           (Exn "RuntimeError" "quota exhausted") 7%nat
           eq_refl eq_refl eq_refl eq_refl).
Defined.

(** X5.  [get_available_tools] yields one dictionary per tool of
    [stock_tools], in the same order, holding that tool's [name] and
    [description] and no other key; it needs no initialized system. *)
Theorem available_tools_describe_each_tool `{Collaborators} `{!Reflection}
    (f : frame) :
  exists described,
    get_available_tools f = (Returned described, f)
    /\ length described = length (stock_tools (self f))
    /\ forall (i : nat) (tool : Tool),
         stock_tools (self f) !! i = Some tool ->
         exists d : dict,
           described !! i = Some d
           /\ d !! "name" = Some (VStr (tool_name tool))
           /\ d !! "description" = Some (VStr (tool_description tool))
           /\ dom d = ({[ "name"; "description" ]} : gset string).
Proof.
  eexists. split; [reflexivity|]. split; [apply length_map|].
  intros i tool Hi. eexists. split.
  - rewrite list_lookup_fmap, Hi. reflexivity.
  - split; [now rewrite lookup_insert_eq|]. split.
    + rewrite lookup_insert_ne by discriminate.
      now rewrite lookup_singleton_eq.
    + now rewrite dom_insert_L, dom_singleton_L.
Qed.

Lemma available_tools_describe_each_tool_witness :
  exists described (d : dict),
    fst (@get_available_tools Demo.collaborators Demo.reflection
           Demo.not_ready) = Returned described
    /\ described !! 1%nat = Some d
    /\ d !! "name" = Some (VStr "get_company_info").
Proof.
  destruct (@available_tools_describe_each_tool Demo.collaborators
              Demo.reflection Demo.not_ready)
    as (described & Hrun & _ & Heach).
  destruct (Heach 1%nat "get_company_info" eq_refl)
    as (d & Hd & Hname & _).
  exists described, d. rewrite Hrun. now repeat split.
Defined.

(** X6.  The text of [__str__] tells the flag and the number of tools
    apart and nothing else: two systems print alike exactly when they
    agree on both.  [__repr__] is the same text, and neither changes
    the system. *)
Theorem str_tells_flag_and_tool_count `{Collaborators} `{!Reflection}
    (f1 f2 : frame) :
  (fst (__str__ f1) = fst (__str__ f2)
   <-> is_initialized (self f1) = is_initialized (self f2)
       /\ length (stock_tools (self f1)) = length (stock_tools (self f2)))
  /\ __repr__ f1 = __str__ f1
  /\ snd (__str__ f1) = f1.
Proof.
  split; [|now split]. unfold __str__, bind, gets, ret. simpl. split.
  - intros Heq. injection Heq as Heq.
    apply (inj (String.app _)) in Heq.
    assert (Hflag : is_initialized (self f1) = is_initialized (self f2)).
    { destruct (is_initialized (self f1)), (is_initialized (self f2));
        try reflexivity; unfold str_bool in Heq;
        rewrite !append_cons in Heq; discriminate Heq. }
    split; [exact Hflag|]. rewrite Hflag in Heq.
    apply (inj (String.app _)) in Heq.
    apply (inj (String.app _)) in Heq.
    apply append_cancel_r in Heq.
    now apply (inj pretty) in Heq.
  - intros [-> ->]. reflexivity.
Qed.



(** ** More on construction *)

Section Built.

Context `{Collaborators}.

Ltac split_outcome call :=
  let r := fresh "r" in
  let w := fresh "w" in
  destruct call as [[r|r] w]; simpl.

Ltac next_call :=
  match goal with
  | |- context [OrchestratorAgent ?m ?t ?l ?v ?w] =>
      split_outcome (OrchestratorAgent m t l v w)
  | |- context [JuniorAgent ?m ?t ?l ?v ?w] =>
      split_outcome (JuniorAgent m t l v w)
  | |- context [MasterAgent ?m ?t ?l ?v ?w] =>
      split_outcome (MasterAgent m t l v w)
  | |- context [setup_agents ?a ?l ?l' ?w] =>
      split_outcome (setup_agents a l l' w)
  end.

(** How [_initialize_system] ends: flag set, agents bound and the
    success line printed, or flag cleared and the error line printed. *)
Lemma initialize_system_outcome (f : frame) :
  let f' := snd (_initialize_system f) in
  (is_initialized (self f') = true
   /\ is_Some (orchestrator (self f'))
   /\ is_Some (junior_agent (self f'))
   /\ is_Some (master_agent (self f'))
   /\ console (proc f') = (console (proc f) ++ [initialized_message])%list)
  \/ (is_initialized (self f') = false
      /\ exists e,
           console (proc f')
           = (console (proc f) ++ [init_error_message e])%list).
Proof.
  unfold _initialize_system, try_except, bind, gets, extern, assign,
    modify, print, ret, raise, attr_of.
  simpl.
  repeat next_call;
    first [ left; repeat split; eexists; reflexivity
          | right; split; [reflexivity|]; eexists; reflexivity ].
Qed.

End Built.

(** X8.  An object that [StockAgentSystem(...)] returns holds the
    configuration it was given and an empty history.  If its flag is
    set, the orchestrator, the junior and the master agent are all
    bound and the last line printed is the success line; if not, the
    last line printed is the error line of [_initialize_system]. *)
Theorem constructed_system_invariant `{Collaborators}
    (cfg : Config.t) (p p' : process) (sys : StockAgentSystem.t) :
  __init__ cfg p = (Returned sys, p') ->
  config sys = cfg
  /\ session_history sys = []
  /\ (is_initialized sys = true ->
      is_Some (orchestrator sys)
      /\ is_Some (junior_agent sys)
      /\ is_Some (master_agent sys)
      /\ last (console p') = Some initialized_message)
  /\ (is_initialized sys = false ->
      exists e, last (console p') = Some (init_error_message e)).
Proof.
  intros Hrun.
  destruct (opt_truthy (Config.OPENAI_API_KEY cfg)) eqn:Hkey.
  - destruct (init_present cfg p Hkey)
      as (sys' & p'' & line & Hrun' & Hcfg & _ & Hhist & _).
    rewrite Hrun' in Hrun. injection Hrun as <- <-.
    split; [exact Hcfg|]. split; [exact Hhist|].
    unfold __init__ in Hrun'.
    rewrite (validate_config_present cfg p Hkey) in Hrun'.
    set (blank := Build cfg _ None None None false []) in Hrun'.
    pose proof (initialize_system_outcome (Frame blank (validated cfg p)))
      as Hout.
    destruct (_initialize_system (Frame blank (validated cfg p)))
      as [[[[]|e]|e] f'] eqn:Hinit; simpl in Hout;
      [|discriminate Hrun'|discriminate Hrun'].
    injection Hrun' as Hs Hp. subst sys' p''.
    destruct Hout as [(Hflag & Ho & Hj & Hm & Hc)|(Hflag & e & Hc)].
    + split; [|congruence]. intros _. rewrite Hc, last_snoc.
      now repeat split.
    + split; [congruence|]. intros _. exists e.
      now rewrite Hc, last_snoc.
  - unfold __init__ in Hrun.
    rewrite (validate_config_missing cfg p Hkey) in Hrun.
    discriminate Hrun.
Qed.

Lemma constructed_system_invariant_witness :
  exists e,
    last (console (proc Demo.not_ready))
    = Some (@init_error_message e).
Proof.
  destruct (@constructed_system_invariant Demo.collaborators
              Demo.bad_model_config Demo.boot (proc Demo.not_ready)
              (self Demo.not_ready) eq_refl)
    as (_ & _ & _ & Herr).
  exact (Herr eq_refl).
Defined.

(** X9.  Nothing is rolled back when the agents cannot all be built.  If
    the orchestrator is constructed and the junior agent's constructor
    then raises [e], [StockAgentSystem(...)] still returns an object: the
    orchestrator stays bound, the junior and master agents are [None],
    the flag is false, the error line for [e] is printed, and every
    query is answered by the not-initialized guard. *)
Theorem junior_failure_keeps_orchestrator `{Collaborators}
    (cfg : Config.t) (p : process) (a : Agent) (e : exn) (w1 w2 : World) :
  opt_truthy (Config.OPENAI_API_KEY cfg) = true ->
  OrchestratorAgent (Config.OPENAI_MODEL cfg)
    (Config.ORCHESTRATOR_AGENT_TEMPERATURE cfg)
    (get_stock_tools (Config.get_stock_api_key cfg))
    (Config.VERBOSE cfg) (world (validated cfg p)) = (Returned a, w1) ->
  JuniorAgent (Config.OPENAI_MODEL cfg)
    (Config.JUNIOR_AGENT_TEMPERATURE cfg)
    (get_stock_tools (Config.get_stock_api_key cfg))
    (Config.VERBOSE cfg) w1 = (Raised e, w2) ->
  exists sys p',
    __init__ cfg p = (Returned sys, p')
    /\ orchestrator sys = Some a
    /\ junior_agent sys = None
    /\ master_agent sys = None
    /\ is_initialized sys = false
    /\ world p' = w2
    /\ console p'
       = (console (validated cfg p) ++ [init_error_message e])%list
    /\ forall query,
         analyze_query query (Frame sys p')
         = (Returned not_initialized_result, Frame sys p').
Proof.
  intros Hkey Horch Hjunior. unfold __init__.
  rewrite (validate_config_present cfg p Hkey).
  unfold _initialize_system, try_except, bind, gets, extern, assign,
    modify, print, ret, raise, attr_of.
  simpl. rewrite Horch. simpl. rewrite Hjunior. simpl.
  eexists. eexists. split; [reflexivity|]. simpl.
  repeat split; intros; now apply guard_path.
Qed.

Lemma junior_failure_keeps_orchestrator_witness :
  exists sys p',
    @__init__ Lab.collaborators Lab.no_junior_config Lab.boot
    = (Returned sys, p')
    /\ orchestrator sys = Some "orchestrator"
    /\ junior_agent sys = None
    /\ is_initialized sys = false.
Proof.
  destruct (@junior_failure_keeps_orchestrator Lab.collaborators
              Lab.no_junior_config Lab.boot "orchestrator"
              (Exn "RuntimeError" "junior model unavailable")
              1%nat 2%nat eq_refl eq_refl eq_refl)
    as (sys & p' & Hrun & Ho & Hj & _ & Hflag & _).
  exists sys, p'. now repeat split.
Defined.

(** X10.  A query touches nothing but the history and the world: the
    configuration, the tools, the three agents and the flag are as
    before, nothing is printed, and the old history is a prefix of the
    new one, which is at most one entry longer; an appended entry holds
    the query as it was passed. *)
Theorem query_only_extends_history `{Collaborators}
    (query : string) (f f' : frame) (d : dict) :
  analyze_query query f = (Returned d, f') ->
  config (self f') = config (self f)
  /\ stock_tools (self f') = stock_tools (self f)
  /\ orchestrator (self f') = orchestrator (self f)
  /\ junior_agent (self f') = junior_agent (self f)
  /\ master_agent (self f') = master_agent (self f)
  /\ is_initialized (self f') = is_initialized (self f)
  /\ console (proc f') = console (proc f)
  /\ (session_history (self f') = session_history (self f)
      \/ exists t,
           session_history (self f')
           = (session_history (self f) ++ [Entry query d t])%list)
  /\ session_history (self f) `prefix_of` session_history (self f').
Proof.
  intros Hrun.
  destruct (analyze_query_path query f) as (r & f0 & Hrun0 & Hpath).
  rewrite Hrun0 in Hrun. injection Hrun as -> ->.
  inversion Hpath; subst; simpl; repeat split; auto.
  - right. now eexists.
  - now apply prefix_app_r.
Qed.

Lemma query_only_extends_history_witness :
  session_history (self Demo.ready) `prefix_of`
    session_history
      (self (snd (analyze_query "Analyze TSLA stock" Demo.ready)))
  /\ console (proc (snd (analyze_query "Analyze TSLA stock" Demo.ready)))
     = console (proc Demo.ready).
Proof.
  destruct (query_only_extends_history "Analyze TSLA stock" Demo.ready
              _ _ eq_refl)
    as (_ & _ & _ & _ & _ & _ & Hout & _ & Hpre).
  split; [exact Hpre|exact Hout].
Defined.

(** ** Joined symbols *)

Lemma append_assoc (a b c : string) : (a +:+ b) +:+ c = a +:+ b +:+ c.
Proof.
  induction a as [|x a IH]; [reflexivity|].
  rewrite !append_cons. now rewrite IH.
Qed.

Lemma join_merges (sep a b : string) (rest : list string) :
  Py.join sep ((a +:+ sep +:+ b) :: rest) = Py.join sep (a :: b :: rest).
Proof.
  destruct rest as [|r rest]; [reflexivity|].
  change (((a +:+ sep +:+ b) +:+ sep +:+ Py.join sep (r :: rest))
          = a +:+ sep +:+ b +:+ sep +:+ Py.join sep (r :: rest)).
  now rewrite !append_assoc.
Qed.

(** X11.  The list wrappers flatten their symbols without escaping: a
    symbol that contains [", "] sends the very query that the two
    symbols around the separator send, so [compare_stocks] and
    [portfolio_analysis] cannot tell [["A, B"]] from [["A"; "B"]]. *)
Theorem joined_symbols_are_ambiguous `{Collaborators}
    (a b : string) (rest : list string) (f : frame) :
  compare_stocks ((a +:+ ", " +:+ b) :: rest) f
  = compare_stocks (a :: b :: rest) f
  /\ portfolio_analysis ((a +:+ ", " +:+ b) :: rest) f
     = portfolio_analysis (a :: b :: rest) f.
Proof.
  unfold compare_stocks, portfolio_analysis.
  now rewrite join_merges.
Qed.

(** ** More on the configuration *)

Lemma lower_ascii_cases (c : ascii) (l u : ascii) :
  l = lower_ascii u -> u <> l ->
  (65 <=? nat_of_ascii u)%nat && (nat_of_ascii u <=? 90)%nat = true ->
  lower_ascii c = l -> c = l \/ c = u.
Proof.
  intros -> Hne Hup Hc. unfold lower_ascii in *. rewrite Hup in *.
  destruct ((65 <=? nat_of_ascii c)%nat && (nat_of_ascii c <=? 90)%nat)
    eqn:Hcup; [right|now left].
  apply andb_prop in Hcup as [Hc1 Hc2], Hup as [Hu1 Hu2].
  apply Nat.leb_le in Hc1, Hc2, Hu1, Hu2.
  apply (f_equal nat_of_ascii) in Hc.
  rewrite !nat_ascii_embedding in Hc by lia.
  rewrite <- (ascii_nat_embedding c), <- (ascii_nat_embedding u).
  f_equal. lia.
Qed.

Lemma lower_true (s : string) :
  Py.lower s = "true" <-> In s verbose_spellings.
Proof.
  split.
  - destruct s as [|a [|b [|c [|d [|x s]]]]]; simpl; try discriminate.
    intros Heq. injection Heq as Ha Hb Hc Hd.
    apply (lower_ascii_cases a "t" "T")%char in Ha;
      [|reflexivity|discriminate|reflexivity].
    apply (lower_ascii_cases b "r" "R")%char in Hb;
      [|reflexivity|discriminate|reflexivity].
    apply (lower_ascii_cases c "u" "U")%char in Hc;
      [|reflexivity|discriminate|reflexivity].
    apply (lower_ascii_cases d "e" "E")%char in Hd;
      [|reflexivity|discriminate|reflexivity].
    destruct Ha as [-> | ->], Hb as [-> | ->], Hc as [-> | ->],
      Hd as [-> | ->]; tauto.
  - unfold verbose_spellings. simpl.
    intros Hin. repeat (destruct Hin as [<-|Hin]; [reflexivity|]).
    contradiction.
Qed.

(** X12.  Verbosity is on exactly when [VERBOSE] is unset or spells the
    word [true] in some mix of upper and lower case; any other text,
    such as [1], [yes], [on] or [true] with a blank around it, switches
    it off. *)
Theorem verbose_only_for_true (env : Config.environ) (cfg : Config.t) :
  Config.class_body env = Returned cfg ->
  (Config.VERBOSE cfg = true
   <-> Config.getenv env "VERBOSE" = None
       \/ exists text,
            Config.getenv env "VERBOSE" = Some text
            /\ In text verbose_spellings)
  /\ forall text,
       In text ["1"; "yes"; "on"; " true"; "true "; ""] ->
       Config.getenv env "VERBOSE" = Some text ->
       Config.VERBOSE cfg = false.
Proof.
  unfold Config.class_body, Config.and_then, Config.getenv_or,
    Config.getenv.
  destruct (Py.float _); [|discriminate].
  destruct (Py.float _); [|discriminate].
  destruct (Py.float _); [|discriminate].
  destruct (Py.int _); [|discriminate].
  intros Heq. injection Heq as <-. simpl. split.
  - destruct (env !! "VERBOSE") as [text|] eqn:Hv; simpl.
    + rewrite String.eqb_eq, lower_true. split.
      * intros Hin. right. now exists text.
      * intros [Hnone|(text' & Hsome & Hin)]; [discriminate Hnone|].
        now injection Hsome as ->.
    + split; [now left|reflexivity].
  - intros text Hin Hv. rewrite Hv. simpl in *.
    repeat (destruct Hin as [<-|Hin]; [reflexivity|]).
    contradiction.
Qed.

Lemma verbose_only_for_true_witness :
  exists cfg,
    Config.class_body {[ "VERBOSE" := "yes" ]} = Returned cfg
    /\ Config.VERBOSE cfg = false.
Proof.
  eexists. split; [reflexivity|].
  refine (proj2 (verbose_only_for_true {[ "VERBOSE" := "yes" ]} _
                   eq_refl) "yes" _ eq_refl).
  simpl. tauto.
Defined.

(** X13.  [validate_config] and [get_stock_api_key] agree on what a
    usable stock-data credential is: with the LLM credential present,
    the fallback warning is printed exactly when [get_stock_api_key]
    yields nothing usable ([None] or the empty text); otherwise nothing
    is printed.  The check never touches the world. *)
Theorem warning_iff_no_stock_key `{Collaborators}
    (cfg : Config.t) (p : process) :
  opt_truthy (Config.OPENAI_API_KEY cfg) = true ->
  exists p',
    Config.validate_config cfg p = (Returned tt, p')
    /\ world p' = world p
    /\ (opt_truthy (Config.get_stock_api_key cfg) = true -> p' = p)
    /\ (opt_truthy (Config.get_stock_api_key cfg) = false ->
        console p'
        = (console p ++ [Config.no_stock_key_warning])%list).
Proof.
  intros Hkey. exists (validated cfg p).
  split; [now apply validate_config_present|].
  unfold validated, Config.get_stock_api_key, Py.or_.
  destruct (opt_truthy (Config.ALPHA_VANTAGE_API_KEY cfg)) eqn:Hav;
    simpl; [now rewrite Hav|].
  destruct (opt_truthy (Config.FINNHUB_API_KEY cfg)) eqn:Hfh;
    simpl; now repeat split.
Qed.

Lemma warning_iff_no_stock_key_witness :
  Config.validate_config
    (Config.Build (Some "sk-test") "gpt-4" None (Some "")
       (7 # 10) (1 # 2) (3 # 10) 10 true) Demo.boot
  = (Returned tt,
     @Process Demo.collaborators 0%nat [Config.no_stock_key_warning]).
Proof.
  destruct (@warning_iff_no_stock_key Demo.collaborators
              (Config.Build (Some "sk-test") "gpt-4" None (Some "")
                 (7 # 10) (1 # 2) (3 # 10) 10 true) Demo.boot eq_refl)
    as (p' & Hrun & Hw & _ & Hwarn).
  rewrite Hrun. f_equal. destruct p' as [w out].
  simpl in Hw. pose proof (Hwarn eq_refl) as Hout. simpl in Hout.
  now subst w out.
Defined.

(** X14.  The credentials play no part when the class body is run:
    setting, changing or removing [OPENAI_API_KEY],
    [ALPHA_VANTAGE_API_KEY] or [FINNHUB_API_KEY] neither makes the
    import fail nor lets it pass, and leaves the model, the three
    temperatures, the iteration cap and the verbosity as they are. *)
Theorem credentials_do_not_affect_options
    (env : Config.environ) (name value : string) :
  In name credential_options ->
  same_options (Config.class_body (<[ name := value ]> env))
    (Config.class_body env)
  /\ same_options (Config.class_body (delete name env))
       (Config.class_body env).
Proof.
  intros Hin.
  assert (Hother : forall k,
            In k defaulted_options ->
            (<[ name := value ]> env) !! k = env !! k
            /\ delete name env !! k = env !! k).
  { intros k Hk. unfold credential_options, defaulted_options in *.
    simpl in Hin, Hk.
    assert (name <> k).
    { repeat (destruct Hin as [<-|Hin];
              [repeat (destruct Hk as [<-|Hk]; [discriminate|]);
               contradiction|]).
      contradiction. }
    now rewrite lookup_insert_ne, lookup_delete_ne. }
  unfold Config.class_body, Config.getenv_or, Config.getenv.
  repeat match goal with
  | |- context [(<[ name := value ]> env) !! ?k] =>
      lazymatch k with
      | "OPENAI_API_KEY" => fail
      | "ALPHA_VANTAGE_API_KEY" => fail
      | "FINNHUB_API_KEY" => fail
      | _ =>
          rewrite (proj1 (Hother k
                            ltac:(unfold defaulted_options; simpl; tauto)))
      end
  | |- context [delete name env !! ?k] =>
      lazymatch k with
      | "OPENAI_API_KEY" => fail
      | "ALPHA_VANTAGE_API_KEY" => fail
      | "FINNHUB_API_KEY" => fail
      | _ =>
          rewrite (proj2 (Hother k
                            ltac:(unfold defaulted_options; simpl; tauto)))
      end
  end.
  unfold Config.and_then.
  destruct (Py.float _); [|now split].
  destruct (Py.float _); [|now split].
  destruct (Py.float _); [|now split].
  destruct (Py.int _); [|now split].
  now repeat split.
Qed.

Lemma credentials_do_not_affect_options_witness :
  same_options
    (Config.class_body
       (<[ "OPENAI_API_KEY" := "sk-test" ]> {[ "MAX_ITERATIONS" := "ten" ]}))
    (Config.class_body {[ "MAX_ITERATIONS" := "ten" ]})
  /\ Config.class_body {[ "MAX_ITERATIONS" := "ten" ]}
     = Raised (Py.int_error "ten").
Proof.
  split; [|reflexivity].
  refine (proj1 (credentials_do_not_affect_options
                   {[ "MAX_ITERATIONS" := "ten" ]} "OPENAI_API_KEY"
                   "sk-test" _)).
  simpl. tauto.
Defined.

(** ** The command line *)

Section CommandLine.

Context `{Collaborators} `{!Reflection} `{!Runtime}.

Import StockAgentCLI.

Implicit Types (s : session) (query line : string) (rest : list key).

Ltac absurd_member H :=
  repeat (apply elem_of_cons in H as [H|H]; [discriminate H|]);
  now apply elem_of_nil in H.

Lemma lower_empty query : Py.lower query = "" -> query = "".
Proof. now destruct query. Qed.

Lemma dispatch_leaving query :
  Py.lower query ∈ leaving_words -> dispatch query = assign_running false.
Proof.
  intros Hin. unfold dispatch.
  destruct (String.eqb query "") eqn:Hblank.
  - apply String.eqb_eq in Hblank. subst query. simpl in Hin.
    unfold leaving_words in Hin. absurd_member Hin.
  - now rewrite (bool_decide_eq_true_2 _ Hin).
Qed.

Lemma dispatch_word query (word : string) :
  word ∈ ["help"; "status"; "test"; "history"; "clear"] ->
  Py.lower query = word ->
  dispatch query
  = if String.eqb word "help" then show_help
    else if String.eqb word "status" then show_system_info
    else if String.eqb word "test" then test_system
    else if String.eqb word "history" then show_history
    else bind (on_system "clear_session_history"
                 StockAgentSystem.clear_session_history)
           (fun _ => print "✅ Session history cleared").
Proof.
  intros Hin Hword. unfold dispatch. rewrite Hword.
  destruct (String.eqb query "") eqn:Hblank.
  - apply String.eqb_eq in Hblank. subst query. simpl in Hword.
    subst word. absurd_member Hin.
  - rewrite !elem_of_cons in Hin.
    destruct Hin as [->|[->|[->|[->|[->|Hin]]]]]; try reflexivity.
    now apply elem_of_nil in Hin.
Qed.


(** The two [except] clauses of the loop. *)
Local Abbreviation on_interrupt :=
  (bind (print (nl +:+ nl +:+ "👋 Goodbye!"))
     (fun _ => assign_running false)).
Local Abbreviation on_exception :=
  (fun e => print (nl +:+ "❌ Error: " +:+ exn_str e)).

(** A turn that reads a line runs [dispatch] on the stripped line under
    the handlers of the loop. *)
Lemma turn_line s line rest :
  stdin s = Line line :: rest ->
  turn s
  = try_except_interrupt (dispatch (Text.strip line))
      on_interrupt on_exception (prompted s rest).
Proof.
  intros Hin. unfold turn, try_except_interrupt, bind at 1, input.
  now rewrite Hin.
Qed.


Lemma while_running_step (fuel : nat) s :
  running (cli s) = true ->
  while_running (S fuel) s = bind turn (fun _ => while_running fuel) s.
Proof.
  intros Hgo. simpl. unfold bind at 1, gets. now rewrite Hgo.
Qed.

Lemma bind_returned {S A B} (m : M S A) (k : A -> M S B) (st st' : S)
    (a : A) :
  m st = (Returned a, st') -> bind m k st = k a st'.
Proof. intros Hm. unfold bind. now rewrite Hm. Qed.

Lemma bind_raised {S A B} (m : M S A) (k : A -> M S B) (st st' : S)
    (e : exn) :
  m st = (Raised e, st') -> bind m k st = (Raised e, st').
Proof. intros Hm. unfold bind. now rewrite Hm. Qed.


Lemma interrupt_returned {S A} (body i : M S A) (h : exn -> M S A)
    (st st' : S) (a : A) :
  body st = (Returned a, st') ->
  try_except_interrupt body i h st = (Returned a, st').
Proof. intros Hb. unfold try_except_interrupt. now rewrite Hb. Qed.

Lemma interrupt_raised {S A} (body i : M S A) (h : exn -> M S A)
    (st st' : S) (e : exn) :
  body st = (Raised e, st') ->
  try_except_interrupt body i h st = h e st'.
Proof. intros Hb. unfold try_except_interrupt. now rewrite Hb. Qed.


Lemma printed_nil s : printed [] s = s.
Proof.
  destruct s as [c [w out] keys]. unfold printed. simpl.
  now rewrite app_nil_r.
Qed.

Lemma printed_app (l1 l2 : list string) s :
  printed l2 (printed l1 s) = printed (l1 ++ l2) s.
Proof. unfold printed. simpl. now rewrite app_assoc. Qed.

Lemma print_printed (text : string) s :
  print text s = (Returned tt, printed [text] s).
Proof. reflexivity. Qed.

(** A loop whose body only prints prints the lines of its items in
    turn. *)
Lemma for_each_prints {A} (xs : list A) (render : A -> list string)
    (body : A -> M session unit) :
  (forall x s, body x s = (Returned tt, printed (render x) s)) ->
  forall s,
    for_each xs body s = (Returned tt, printed (concat (map render xs)) s).
Proof.
  intros Hbody. induction xs as [|x xs IH]; intros s.
  - simpl. unfold ret. now rewrite printed_nil.
  - simpl. rewrite (bind_returned _ _ _ _ _ (Hbody x s)).
    now rewrite IH, printed_app.
Qed.

Lemma entries_lines_concat (l : list StockAgentSystem.entry) (k : nat) :
  concat (map (fun '(i, entry) => entry_lines i entry) (enumerate l k))
  = entries_lines k l.
Proof.
  revert k. induction l as [|e l IH]; intros k; [reflexivity|].
  simpl. now rewrite IH.
Qed.

Lemma show_history_report s (o : StockAgentSystem.t) :
  system (cli s) = Some o ->
  show_history s
  = (Returned tt, printed (history_report (session_history o)) s).
Proof.
  intros Hsys. destruct s as [[sys go] t keys].
  simpl in Hsys. subst sys. unfold show_history.
  rewrite (bind_returned _ _ _ (Session (Build (Some o) go) t keys)
             (session_history o)) by reflexivity.
  unfold history_report.
  destruct (session_history o) as [|e0 history]; [reflexivity|].
  rewrite (bind_returned _ _ _ _ _ (print_printed _ _)).
  rewrite (bind_returned _ _ _ _ _ (print_printed _ _)).
  rewrite (for_each_prints _ (fun '(i, entry) => entry_lines i entry)).
  - rewrite entries_lines_concat, !printed_app. reflexivity.
  - intros [i entry] s'. unfold bind, print, modify, printed. simpl.
    now rewrite <- !app_assoc.
Qed.

Lemma try_returned {S A} (body : M S A) (handler : exn -> M S A)
    (st st' : S) (a : A) :
  body st = (Returned a, st') ->
  try_except body handler st = (Returned a, st').
Proof. intros Hb. unfold try_except. now rewrite Hb. Qed.

Lemma try_raised {S A} (body : M S A) (handler : exn -> M S A)
    (st st' : S) (e : exn) :
  body st = (Raised e, st') ->
  try_except body handler st = handler e st'.
Proof. intros Hb. unfold try_except. now rewrite Hb. Qed.

Lemma on_system_run {A} (method : string) (call : M frame A) s
    (o : StockAgentSystem.t) (r : ending A) (f : frame) :
  system (cli s) = Some o ->
  call (Frame o (terminal s)) = (r, f) ->
  on_system method call s = (r, resumed s f).
Proof.
  intros Hsys Hcall. unfold on_system. now rewrite Hsys, Hcall.
Qed.



Lemma turn_at_end_of_input s :
  stdin s = [] ->
  turn s = (Returned tt, printed [prompt; eof_report] s).
Proof.
  intros Hin. unfold turn.
  rewrite (interrupt_raised _ _ _ _ (printed [prompt] s)
             (EOFError "EOF when reading a line")).
  - now rewrite print_printed, printed_app.
  - apply bind_raised. unfold input, printed. now rewrite Hin.
Qed.



Lemma banner_printed (fuel : nat) s :
  run_interactive_mode fuel s = while_running fuel (printed banner s).
Proof.
  unfold run_interactive_mode.
  rewrite (bind_returned _ _ _ _ _ (print_printed _ _)).
  rewrite (bind_returned _ _ _ _ _ (print_printed _ _)).
  rewrite (bind_returned _ _ _ _ _ (print_printed _ _)).
  rewrite (bind_returned _ _ _ _ _ (print_printed _ _)).
  now rewrite !printed_app.
Qed.

Lemma entries_lines_length (l : list StockAgentSystem.entry) (k : nat) :
  length (entries_lines k l) = (4 * length l)%nat.
Proof.
  revert k. induction l as [|e l IH]; intros k; [reflexivity|].
  simpl. rewrite IH. lia.
Qed.

Lemma entries_lines_lookup (l : list StockAgentSystem.entry) (k i : nat)
    (entry : StockAgentSystem.entry) :
  l !! i = Some entry ->
  entries_lines k l !! (4 * i)%nat
  = Some (pretty (k + i)%nat +:+ ". Query: " +:+ entry_query entry).
Proof.
  revert k i. induction l as [|e l IH]; intros k i Hi; [discriminate|].
  destruct i as [|i].
  - injection Hi as ->. simpl. now rewrite Nat.add_0_r.
  - simpl in Hi. replace (4 * S i)%nat with (S (S (S (S (4 * i))))) by lia.
    remember (4 * i)%nat as j eqn:Hj. simpl. subst j.
    rewrite (IH (S k) i Hi). do 3 f_equal. lia.
Qed.

Lemma turn_leaving s line rest :
  stdin s = Line line :: rest ->
  Py.lower (Text.strip line) ∈ leaving_words ->
  turn s = (Returned tt, stopped (prompted s rest)).
Proof.
  intros Hin Hleave. rewrite (turn_line s line rest Hin).
  now rewrite (dispatch_leaving _ Hleave).
Qed.


End CommandLine.

(** X15.  Four kinds of line are answered by the loop itself, whatever
    their case and the blanks around them, and never reach the system
    or the agents: a blank line does nothing but bring the prompt back;
    [quit], [exit] and [q] clear the flag [running], silently; [help]
    prints the help text; [history] prints the listing of the history.
    The object's system, the world and the history are untouched. *)
Theorem words_answered_by_the_loop `{Collaborators} `{!Reflection}
    `{!Runtime} (s : StockAgentCLI.session) (line : string)
    (rest : list StockAgentCLI.key) :
  StockAgentCLI.stdin s = StockAgentCLI.Line line :: rest ->
  (Text.strip line = "" ->
   StockAgentCLI.turn s = (Returned tt, prompted s rest))
  /\ (Py.lower (Text.strip line) ∈ leaving_words ->
      StockAgentCLI.turn s = (Returned tt, stopped (prompted s rest)))
  /\ (Py.lower (Text.strip line) = "help" ->
      StockAgentCLI.turn s
      = (Returned tt, printed [StockAgentCLI.help_text] (prompted s rest)))
  /\ (forall o,
        Py.lower (Text.strip line) = "history" ->
        StockAgentCLI.system (StockAgentCLI.cli s) = Some o ->
        StockAgentCLI.turn s
        = (Returned tt,
           printed (history_report (session_history o)) (prompted s rest))).
Proof.
  intros Hin. rewrite (turn_line s line rest Hin).
  split; [|split; [|split]].
  - intros ->. reflexivity.
  - intros Hleave. rewrite <- (turn_line s line rest Hin).
    now apply turn_leaving with line.
  - intros Hword.
    rewrite (dispatch_word _ "help" ltac:(set_solver) Hword).
    reflexivity.
  - intros o Hword Hsys.
    rewrite (dispatch_word _ "history" ltac:(set_solver) Hword).
    apply interrupt_returned. now apply show_history_report.
Qed.

Lemma words_answered_by_the_loop_witness :
  @StockAgentCLI.turn Demo.collaborators Demo.reflection Demo.runtime
    (Demo.at_prompt [StockAgentCLI.Line "  QuIt "; StockAgentCLI.Line "x"])
  = (Returned tt,
     stopped (prompted (Demo.at_prompt []) [StockAgentCLI.Line "x"])).
Proof.
  refine (proj1 (proj2 (@words_answered_by_the_loop Demo.collaborators
                          Demo.reflection Demo.runtime
                          (Demo.at_prompt [StockAgentCLI.Line "  QuIt ";
                                           StockAgentCLI.Line "x"])
                          "  QuIt " [StockAgentCLI.Line "x"] eq_refl)) _).
  vm_compute. set_solver.
Defined.



(** A first Ctrl-C under [asyncio.run] does not end the loop: the next
    line is read and answered. *)
Example absorbed_interrupt_reads_on :
  @StockAgentCLI.run_interactive_mode Lab.collaborators Lab.reflection
    Lab.runtime 1
    (Lab.at_prompt [StockAgentCLI.CtrlC; StockAgentCLI.Line "help"])
  = (Returned false,
     printed (banner ++ [StockAgentCLI.prompt; StockAgentCLI.help_text])
       (moved (Lab.at_prompt []) 1004%nat [])).
Proof. reflexivity. Qed.



(** A success without output, as the loop reports it. *)
Example ping_is_reported_as_an_error :
  let s' :=
    snd (@StockAgentCLI.turn Lab.collaborators Lab.reflection Lab.runtime
           (Lab.at_prompt [StockAgentCLI.Line "  ping "])) in
  last (console (StockAgentCLI.terminal s'))
  = Some (nl +:+ "❌ Error: 'output'")
  /\ StockAgentCLI.running (StockAgentCLI.cli s') = true
  /\ (map entry_query <$>
       (session_history <$> StockAgentCLI.system (StockAgentCLI.cli s')))
     = Some ["ping"].
Proof. vm_compute. repeat split. Qed.

(** X18.  At the end of the input the loop never ends.  [input] raises
    [EOFError], the loop's handler prints it and, [running] being still
    true, the next turn does the same: for every number of turns, the
    loop is still going, having printed the prompt and the error line
    once per turn and touched nothing else. *)
Theorem end_of_input_never_ends_the_loop `{Collaborators} `{!Reflection}
    `{!Runtime} (s : StockAgentCLI.session) (fuel : nat) :
  StockAgentCLI.running (StockAgentCLI.cli s) = true ->
  StockAgentCLI.stdin s = [] ->
  StockAgentCLI.run_interactive_mode fuel s
  = (Returned false,
     printed (banner
              ++ concat (replicate fuel [StockAgentCLI.prompt; eof_report]))
       s).
Proof.
  intros Hgo Hin. rewrite banner_printed.
  rewrite <- printed_app.
  assert (Hgo' : StockAgentCLI.running
                   (StockAgentCLI.cli (printed banner s)) = true)
    by exact Hgo.
  assert (Hin' : StockAgentCLI.stdin (printed banner s) = []) by exact Hin.
  generalize dependent (printed banner s). clear s Hgo Hin.
  induction fuel as [|fuel IH]; intros s Hgo Hin.
  - simpl. unfold bind, gets, ret. rewrite Hgo. simpl.
    now rewrite printed_nil.
  - rewrite while_running_step by exact Hgo.
    rewrite (bind_returned _ _ _ _ _ (turn_at_end_of_input s Hin)).
    rewrite IH by assumption. now rewrite printed_app.
Qed.

Lemma end_of_input_never_ends_the_loop_witness :
  exists s',
    @StockAgentCLI.run_interactive_mode Demo.collaborators Demo.reflection
      Demo.runtime 1000 (Demo.at_prompt [])
    = (Returned false, s')
    /\ StockAgentCLI.running (StockAgentCLI.cli s') = true
    /\ length (console (StockAgentCLI.terminal s')) = 2006%nat.
Proof.
  eexists. split.
  - exact (@end_of_input_never_ends_the_loop Demo.collaborators
             Demo.reflection Demo.runtime (Demo.at_prompt []) 1000
             eq_refl eq_refl).
  - split; [reflexivity|]. vm_compute. reflexivity.
Defined.

(** X19.  [show_history] changes nothing and prints the listing: one
    line when the history is empty; otherwise a header that counts
    every query, a rule, and four lines for each of the last ten
    entries only.  The entries are numbered from 1 in the listing, so
    number [i + 1] is the query at position [n - 10 + i] of a history
    of [n] queries. *)
Theorem history_listing_shows_last_ten `{Collaborators} `{!Reflection}
    `{!Runtime} (s : StockAgentCLI.session) (o : StockAgentSystem.t) :
  StockAgentCLI.system (StockAgentCLI.cli s) = Some o ->
  StockAgentCLI.show_history s
  = (Returned tt, printed (history_report (session_history o)) s)
  /\ length (history_report (session_history o))
     = match length (session_history o) with
       | O => 1%nat
       | S _ => (2 + 4 * Nat.min 10 (length (session_history o)))%nat
       end
  /\ forall (i : nat) (entry : StockAgentSystem.entry),
       session_history o !! (length (session_history o) - 10 + i)%nat
       = Some entry ->
       history_report (session_history o) !! (2 + 4 * i)%nat
       = Some (pretty (S i) +:+ ". Query: " +:+ entry_query entry).
Proof.
  intros Hsys. split; [now apply show_history_report|].
  destruct (session_history o) as [|e0 history] eqn:Hhist.
  { split; [reflexivity|]. intros i entry Hi.
    now rewrite lookup_nil in Hi. }
  set (h := e0 :: history).
  assert (Hrep :
    history_report h
    = ([nl +:+ "📝 QUERY HISTORY (" +:+ pretty (length h) +:+ " queries):";
        times "-" 50]
       ++ entries_lines 1 (last_items 10 h))%list) by reflexivity.
  rewrite Hrep. split.
  - rewrite length_app, entries_lines_length. unfold last_items.
    rewrite length_drop. change (length h) with (S (length history)).
    cbn [length]. lia.
  - intros i entry Hi.
    rewrite lookup_app_r by (cbn [length]; lia).
    replace (2 + 4 * i - length [nl +:+ "📝 QUERY HISTORY ("
                                 +:+ pretty (length h)
                                 +:+ " queries):"; times "-" 50])%nat
      with (4 * i)%nat by (cbn [length]; lia).
    apply (entries_lines_lookup _ 1 i).
    unfold last_items. now rewrite lookup_drop.
Qed.

Lemma history_listing_shows_last_ten_witness :
  exists s',
    @StockAgentCLI.show_history Demo.collaborators Demo.runtime
      (StockAgentCLI.Session
         (StockAgentCLI.Build (Some (self Demo.used)) true)
         (proc Demo.used) [])
    = (Returned tt, s')
    /\ @history_report Demo.collaborators Demo.runtime
         (session_history (self Demo.used)) !! 6%nat
       = Some "2. Query: ".
Proof.
  destruct (@history_listing_shows_last_ten Demo.collaborators
              Demo.reflection Demo.runtime
              (StockAgentCLI.Session
                 (StockAgentCLI.Build (Some (self Demo.used)) true)
                 (proc Demo.used) [])
              (self Demo.used) eq_refl)
    as (Hrun & _ & Hline).
  eexists. split; [exact Hrun|].
  exact (Hline 1%nat
           (Entry ""
              (<[ "success" := VBool false ]>
                 (<[ "error" := VStr "empty query" ]>
                    {[ "agent" := VStr "orchestrator" ]}))
              (inject_Z 6))
           eq_refl).
Defined.

(** ** What the command line leaves in the history *)

Section Recorded.

Context `{Collaborators} `{!Reflection} `{!Runtime}.

Import StockAgentCLI.

Lemma appended_nil (o : StockAgentSystem.t) : appended [] o o.
Proof.
  repeat split. exists []. now rewrite app_nil_r.
Qed.

Lemma appended_trans (q1 q2 : list string) (o o1 o2 : StockAgentSystem.t) :
  appended q1 o o1 -> appended q2 o1 o2 -> appended (q1 ++ q2) o o2.
Proof.
  intros (Hc & Ht & Ho & Hj & Hm & Hi & n1 & Hh1 & Hq1)
         (Hc' & Ht' & Ho' & Hj' & Hm' & Hi' & n2 & Hh2 & Hq2).
  repeat split; try congruence.
  exists (n1 ++ n2)%list. split.
  - now rewrite Hh2, Hh1, app_assoc.
  - now rewrite map_app, Hq1, Hq2.
Qed.

(** A step that leaves the object and the pending input alone adds
    nothing. *)
Lemma adds_nothing {A} (m : M session A) (l : list string) :
  (forall s, cli (snd (m s)) = cli s /\ stdin (snd (m s)) = stdin s) ->
  adds (within l) m.
Proof.
  intros Hquiet s o Hsys. destruct (Hquiet s) as [Hcli Hin].
  exists o, []. rewrite Hcli.
  split; [exact Hsys|]. split; [reflexivity|]. split; [exact Hin|].
  split; [apply sublist_nil_l|apply appended_nil].
Qed.

Lemma adds_bind {A B} (m : M session A) (k : A -> M session B)
    (l1 l2 : list string) :
  adds (within l1) m ->
  (forall a, adds (within l2) (k a)) ->
  adds (within (l1 ++ l2)) (bind m k).
Proof.
  intros Hm Hk s o Hsys.
  destruct (Hm s o Hsys) as (o1 & q1 & Hs1 & Hr1 & Hi1 & Hq1 & Ha1).
  unfold bind. destruct (m s) as [[[a|e]|e] s1]; simpl in *.
  - destruct (Hk a s1 o1 Hs1) as (o2 & q2 & Hs2 & Hr2 & Hi2 & Hq2 & Ha2).
    exists o2, (q1 ++ q2)%list.
    split; [exact Hs2|]. split; [congruence|]. split; [congruence|].
    split; [now apply sublist_app|].
    exact (appended_trans q1 q2 o o1 o2 Ha1 Ha2).
  - exists o1, q1.
    split; [exact Hs1|]. split; [exact Hr1|]. split; [exact Hi1|].
    split; [now apply sublist_inserts_r|exact Ha1].
  - exists o1, q1.
    split; [exact Hs1|]. split; [exact Hr1|]. split; [exact Hi1|].
    split; [now apply sublist_inserts_r|exact Ha1].
Qed.

Lemma adds_for_each {A} (xs : list A) (query_of : A -> string)
    (body : A -> M session unit) :
  (forall x, adds (within [query_of x]) (body x)) ->
  adds (within (map query_of xs)) (for_each xs body).
Proof.
  intros Hbody. induction xs as [|x xs IH].
  - now apply adds_nothing.
  - simpl. apply (adds_bind _ _ [query_of x] (map query_of xs)).
    + apply Hbody.
    + intros _. exact IH.
Qed.

Lemma adds_analyze_query (query : string) :
  adds (within [query])
    (on_system "analyze_query" (analyze_query query)).
Proof.
  intros s o Hsys. unfold on_system. rewrite Hsys.
  destruct (analyze_query_path query (Frame o (terminal s)))
    as (r & f' & Hrun & Hpath).
  rewrite Hrun. simpl. exists (self f').
  destruct Hpath; simpl;
    [exists []|exists []|exists []|exists [query]|exists []];
    (split; [reflexivity|]); (split; [reflexivity|]);
    (split; [reflexivity|]);
    try (split; [apply sublist_nil_l|apply appended_nil]).
  split; [unfold within; reflexivity|].
  repeat (split; [reflexivity|]). now eexists.
Qed.

(** Sleeping, however it ends, leaves the object and the pending input
    alone. *)
Lemma adds_sleep (seconds : Z) (l : list string) :
  adds (within l) (await_sleep seconds).
Proof.
  apply adds_nothing. intros s. unfold await_sleep.
  now destruct (sleep seconds (world (terminal s))).
Qed.

(** A call that leaves the system object as it is adds nothing. *)
Lemma adds_reading {A} (method : string) (call : M frame A)
    (l : list string) :
  (forall f, self (snd (call f)) = self f) ->
  adds (within l) (on_system method call).
Proof.
  intros Hself s o Hsys. unfold on_system. rewrite Hsys.
  specialize (Hself (Frame o (terminal s))).
  destruct (call (Frame o (terminal s))) as [r f]. simpl in *.
  exists o, []. rewrite Hself.
  split; [reflexivity|]. split; [reflexivity|]. split; [reflexivity|].
  split; [apply sublist_nil_l|apply appended_nil].
Qed.

Lemma enumerate_snd {A} (xs : list A) (k : nat) :
  map snd (enumerate xs k) = xs.
Proof.
  revert k. induction xs as [|x xs IH]; intros k; [reflexivity|].
  simpl. now rewrite IH.
Qed.

Lemma adds_test_system : adds (within test_queries) test_system.
Proof.
  unfold test_system.
  apply (adds_bind _ _ [] test_queries);
    [now apply adds_nothing|intros _].
  apply (adds_bind _ _ test_queries []);
    [|intros _; now apply adds_nothing].
  apply (adds_for_each (enumerate test_queries 1) snd).
  intros [i query]. simpl.
  apply (adds_bind _ _ [] [query]); [now apply adds_nothing|intros _].
  apply (adds_bind _ _ [] [query]); [now apply adds_nothing|intros _].
  apply (adds_bind _ _ [query] []); [apply adds_analyze_query|].
  intros result.
  apply (adds_bind _ _ [] []); [|intros _; apply adds_sleep].
  destruct (Py.truthy (Py.get result "success")).
  - apply (adds_bind _ _ [] []); [now apply adds_nothing|intros _].
    apply (adds_bind _ _ [] []).
    { apply adds_nothing. intros s. unfold getitem.
      now destruct (result !! "output"). }
    intros output. apply (adds_bind _ _ [] []).
    { apply adds_nothing. intros s. now destruct output. }
    intros text. now apply adds_nothing.
  - now apply adds_nothing.
Qed.

End Recorded.

(** X20.  The [test] command of the loop leaves its mark: whether
    [test_system] returns or raises (a success without output raises),
    the history of the system is the old one followed by entries for
    some of the three test queries, in their order, at most one each;
    nothing else of the system changes, nor does the flag [running] or
    the pending input. *)
Theorem command_line_test_extends_history `{Collaborators} `{!Reflection}
    `{!Runtime} (s : StockAgentCLI.session) (o : StockAgentSystem.t) :
  StockAgentCLI.system (StockAgentCLI.cli s) = Some o ->
  exists o' queries,
    StockAgentCLI.system
      (StockAgentCLI.cli (snd (StockAgentCLI.test_system s))) = Some o'
    /\ StockAgentCLI.running
         (StockAgentCLI.cli (snd (StockAgentCLI.test_system s)))
       = StockAgentCLI.running (StockAgentCLI.cli s)
    /\ StockAgentCLI.stdin (snd (StockAgentCLI.test_system s))
       = StockAgentCLI.stdin s
    /\ queries `sublist_of` StockAgentCLI.test_queries
    /\ appended queries o o'.
Proof. intros Hsys. exact (adds_test_system s o Hsys). Qed.

Lemma command_line_test_extends_history_witness :
  exists o' queries,
    StockAgentCLI.system
      (StockAgentCLI.cli
         (snd (@StockAgentCLI.test_system Demo.collaborators Demo.runtime
                 (Demo.at_prompt []))))
    = Some o'
    /\ queries `sublist_of` StockAgentCLI.test_queries
    /\ appended queries (self Demo.ready) o'.
Proof.
  destruct (@command_line_test_extends_history Demo.collaborators
              Demo.reflection Demo.runtime (Demo.at_prompt [])
              (self Demo.ready) eq_refl)
    as (o' & queries & Hsys & _ & _ & Hsub & Happ).
  exists o', queries. split; [exact Hsys|]. split; [exact Hsub|exact Happ].
Defined.

(** ** Starting the command line *)

Section Starting.

Context `{Collaborators} `{!Reflection} `{!Runtime}.

Import StockAgentCLI.

Lemma capabilities_self (f : frame) :
  self (snd (get_agent_capabilities f)) = self f.
Proof.
  unfold get_agent_capabilities, bind, gets. simpl.
  destruct (is_initialized (self f)); simpl; [|reflexivity].
  destruct (capabilities_of_self (junior_agent (self f)) f) as [Hs1 _].
  destruct (capabilities_of (junior_agent (self f)) f) as [[[j|e]|e] f1];
    simpl in *; [|exact Hs1|exact Hs1].
  destruct (capabilities_of_self (master_agent (self f1)) f1) as [Hs2 _].
  destruct (capabilities_of (master_agent (self f1)) f1) as [[[m|e]|e] f2];
    simpl in *; congruence.
Qed.

(** Nothing that is not awaited can be left by an exception outside
    [Exception]. *)
Lemma stays_ret {S A} (a : A) : stays (@ret S A a).
Proof. intros st e st'. discriminate. Qed.

Lemma stays_raise {S A} (e : exn) : stays (@raise S A e).
Proof. intros st e' st'. discriminate. Qed.

Lemma stays_gets {S A} (f : S -> A) : stays (gets f).
Proof. intros st e st'. discriminate. Qed.

Lemma stays_modify {S} (f : S -> S) : stays (modify f).
Proof. intros st e st'. discriminate. Qed.

Lemma stays_print {S} `{Console S} (line : string) : stays (@print S _ line).
Proof. intros st e st'. discriminate. Qed.

Lemma stays_bind {S A B} (m : M S A) (k : A -> M S B) :
  stays m -> (forall a, stays (k a)) -> stays (bind m k).
Proof.
  intros Hm Hk st e st'. unfold bind.
  destruct (m st) as [[[a|e0]|e0] st0] eqn:Hrun.
  - apply Hk.
  - discriminate.
  - now apply Hm in Hrun.
Qed.

Lemma stays_try {S A} (body : M S A) (handler : exn -> M S A) :
  stays body -> (forall e, stays (handler e)) ->
  stays (try_except body handler).
Proof.
  intros Hb Hh st e st'. unfold try_except.
  destruct (body st) as [[[a|e0]|e0] st0] eqn:Hrun.
  - discriminate.
  - apply Hh.
  - now apply Hb in Hrun.
Qed.

Lemma stays_for_each {S A} (xs : list A) (body : A -> M S unit) :
  (forall x, stays (body x)) -> stays (for_each xs body).
Proof.
  intros Hbody. induction xs as [|x xs IH]; [apply stays_ret|].
  simpl. apply stays_bind; [apply Hbody|intros _; exact IH].
Qed.

Lemma stays_extern {A} (call : World -> outcome A * World) :
  stays (extern call).
Proof.
  intros f e f'. unfold extern.
  now destruct (call (world (proc f))) as [[a|e0] w].
Qed.

Lemma stays_attr_of (a : option Agent) (method : string) :
  stays (attr_of a method).
Proof. destruct a; [apply stays_ret|apply stays_raise]. Qed.

Lemma stays_getitem {S} (d : dict) (key : string) :
  stays (@getitem S d key).
Proof.
  unfold getitem. destruct (d !! key); [apply stays_ret|apply stays_raise].
Qed.

Lemma stays_on_system {A} (method : string) (call : M frame A) :
  stays call -> stays (on_system method call).
Proof.
  intros Hcall s e s'. unfold on_system.
  destruct (system (cli s)) as [o|]; [|discriminate].
  destruct (call (Frame o (terminal s))) as [r f] eqn:Hrun.
  intros Heq. injection Heq as -> _. now apply Hcall in Hrun.
Qed.

Lemma stays_capabilities_of (a : option Agent) : stays (capabilities_of a).
Proof.
  unfold capabilities_of. destruct (attr_bool a); [|apply stays_ret].
  apply stays_bind; [apply stays_attr_of|intros ag; apply stays_extern].
Qed.

Lemma stays_get_agent_capabilities : stays get_agent_capabilities.
Proof.
  unfold get_agent_capabilities.
  apply stays_bind; [apply stays_gets|intros ready].
  destruct (negb ready); [apply stays_ret|].
  apply stays_bind; [apply stays_gets|intros j].
  apply stays_bind; [apply stays_capabilities_of|intros junior].
  apply stays_bind; [apply stays_gets|intros m].
  apply stays_bind; [apply stays_capabilities_of|intros master].
  apply stays_ret.
Qed.

Lemma stays_show_system_info : stays show_system_info.
Proof.
  unfold show_system_info.
  apply stays_bind; [|intros status].
  { apply stays_on_system.
    apply stays_bind; [apply stays_gets|intros o; apply stays_ret]. }
  apply stays_bind;
    [apply stays_on_system, stays_get_agent_capabilities
    |intros capabilities].
  apply stays_bind; [|intros tools].
  { apply stays_on_system.
    apply stays_bind; [apply stays_gets|intros l; apply stays_ret]. }
  do 6 (apply stays_bind; [apply stays_print|intros _]).
  apply stays_bind; [|intros _].
  { apply stays_for_each. intros [agent caps].
    apply stays_bind; [apply stays_print|intros _].
    apply stays_for_each. intros cap. apply stays_print. }
  apply stays_bind; [apply stays_print|intros _].
  apply stays_for_each. intros tool.
  apply stays_bind; [apply stays_getitem|intros name].
  apply stays_bind; [apply stays_getitem|intros description].
  apply stays_print.
Qed.

Lemma stays_initialize_system : stays _initialize_system.
Proof.
  unfold _initialize_system. apply stays_try.
  - apply stays_bind; [apply stays_gets|intros cfg].
    apply stays_bind; [apply stays_gets|intros tools].
    apply stays_bind; [apply stays_extern|intros orch].
    apply stays_bind; [apply stays_modify|intros _].
    apply stays_bind; [apply stays_extern|intros junior].
    apply stays_bind; [apply stays_modify|intros _].
    apply stays_bind; [apply stays_extern|intros master].
    apply stays_bind; [apply stays_modify|intros _].
    apply stays_bind; [apply stays_gets|intros o].
    apply stays_bind; [apply stays_attr_of|intros orch'].
    apply stays_bind; [apply stays_extern|intros _].
    apply stays_bind; [apply stays_modify|intros _].
    apply stays_print.
  - intros e. apply stays_bind; [apply stays_print|intros _].
    apply stays_modify.
Qed.

Lemma stays_validate_config (cfg : Config.t) :
  stays (@Config.validate_config process _ cfg).
Proof.
  unfold Config.validate_config.
  destruct (negb _); [apply stays_raise|].
  destruct (_ && _); [apply stays_print|apply stays_ret].
Qed.

Lemma stays_init (cfg : Config.t) : stays (StockAgentSystem.__init__ cfg).
Proof.
  intros p e p'. unfold StockAgentSystem.__init__.
  destruct (Config.validate_config cfg p) as [[[[]|e0]|e0] p0] eqn:Hcheck.
  - destruct (_initialize_system _) as [[[[]|e1]|e1] f] eqn:Hrun;
      try discriminate.
    now apply stays_initialize_system in Hrun.
  - discriminate.
  - now apply stays_validate_config in Hcheck.
Qed.

Lemma capabilities_raise (f : frame) (a : Agent) (e : exn) (w : World) :
  is_initialized (self f) = true ->
  junior_agent (self f) = Some a ->
  agent_bool a = true ->
  get_capabilities a (world (proc f)) = (Raised e, w) ->
  get_agent_capabilities f = (Raised e, after_call f w).
Proof.
  intros Hinit Hj Hb Hcall.
  unfold get_agent_capabilities, bind, gets. rewrite Hinit. simpl.
  rewrite Hj. unfold capabilities_of at 1. simpl. rewrite Hb.
  unfold bind, attr_of, extern, ret. simpl. now rewrite Hcall.
Qed.

Lemma adds_nothing_for_each {A} (xs : list A) (body : A -> M session unit) :
  (forall x, adds (within []) (body x)) ->
  adds (within []) (for_each xs body).
Proof.
  intros Hbody. induction xs as [|x xs IH].
  - now apply adds_nothing.
  - simpl. apply (adds_bind _ _ [] []); [apply Hbody|].
    intros _. exact IH.
Qed.

Lemma adds_show_system_info : adds (within []) show_system_info.
Proof.
  unfold show_system_info.
  apply (adds_bind _ _ [] []); [now apply adds_reading|intros status].
  apply (adds_bind _ _ [] []);
    [apply adds_reading, capabilities_self|intros capabilities].
  apply (adds_bind _ _ [] []); [now apply adds_reading|intros tools].
  do 6 (apply (adds_bind _ _ [] []); [now apply adds_nothing|intros _]).
  apply (adds_bind _ _ [] []).
  { apply adds_nothing_for_each. intros [agent caps].
    apply (adds_bind _ _ [] []); [now apply adds_nothing|intros _].
    apply adds_nothing_for_each. intros cap. now apply adds_nothing. }
  intros _.
  apply (adds_bind _ _ [] []); [now apply adds_nothing|intros _].
  apply adds_nothing_for_each. intros tool.
  apply (adds_bind _ _ [] []).
  { apply adds_nothing. intros s. unfold getitem.
    now destruct (tool !! "name"). }
  intros name. apply (adds_bind _ _ [] []).
  { apply adds_nothing. intros s. unfold getitem.
    now destruct (tool !! "description"). }
  intros description. now apply adds_nothing.
Qed.

Lemma initialize_opening (cfg : Config.t) (s : session) :
  initialize cfg s
  = try_except
      (bind (construct cfg)
         (fun sys =>
            bind (assign_system (Some sys))
              (fun _ =>
                 bind (on_system "is_initialized"
                         (gets (fun f => is_initialized (self f))))
                   (fun ready =>
                      if ready then
                        bind (print ready_line)
                          (fun _ => bind show_system_info (fun _ => ret true))
                      else
                        bind (print "❌ Failed to initialize system")
                          (fun _ => ret false)))))
      (fun e => bind (print (initialization_error e)) (fun _ => ret false))
      (printed opening s).
Proof.
  unfold initialize.
  rewrite (bind_returned _ _ _ _ _ (print_printed _ _)).
  rewrite (bind_returned _ _ _ _ _ (print_printed _ _)).
  now rewrite printed_app.
Qed.

End Starting.

(** X21.  Without the LLM credential [initialize] constructs nothing:
    it catches the [ValueError] of the configuration check, prints it
    after its two opening lines, leaves [self.system] as it was and
    returns [False]. *)
Theorem initialize_without_llm_credential `{Collaborators} `{!Reflection}
    `{!Runtime} (cfg : Config.t) (s : StockAgentCLI.session) :
  opt_truthy (Config.OPENAI_API_KEY cfg) = false ->
  StockAgentCLI.initialize cfg s
  = (Returned false,
     printed (opening
              ++ [initialization_error (ValueError Config.openai_required)])
       s).
Proof.
  intros Hkey. rewrite initialize_opening.
  rewrite (try_raised _ _ _ (printed opening s)
             (ValueError Config.openai_required)).
  - rewrite (bind_returned _ _ _ _ _ (print_printed _ _)).
    unfold ret. now rewrite printed_app.
  - apply bind_raised. unfold StockAgentCLI.construct, __init__.
    now rewrite (validate_config_missing cfg _ Hkey).
Qed.

Lemma initialize_without_llm_credential_witness :
  @StockAgentCLI.initialize Lab.collaborators Lab.reflection Lab.runtime
    Demo.no_llm_config Lab.fresh
  = (Returned false,
     printed (opening
              ++ [initialization_error (ValueError Config.openai_required)])
       Lab.fresh).
Proof.
  exact (@initialize_without_llm_credential Lab.collaborators
           Lab.reflection Lab.runtime Demo.no_llm_config Lab.fresh eq_refl).
Defined.

(** X22.  [initialize] never raises: it returns [True] or [False], and
    leaves the flag [running] and the pending input alone.  When it
    returns [True], [self.system] is bound to a system that is
    initialized, holds the configuration in force and has an empty
    history. *)
Theorem initialize_true_means_ready `{Collaborators} `{!Reflection}
    `{!Runtime} (cfg : Config.t) (s : StockAgentCLI.session) :
  exists b s',
    StockAgentCLI.initialize cfg s = (Returned b, s')
    /\ StockAgentCLI.running (StockAgentCLI.cli s')
       = StockAgentCLI.running (StockAgentCLI.cli s)
    /\ StockAgentCLI.stdin s' = StockAgentCLI.stdin s
    /\ (b = true ->
        exists o,
          StockAgentCLI.system (StockAgentCLI.cli s') = Some o
          /\ is_initialized o = true
          /\ config o = cfg
          /\ session_history o = []).
Proof.
  rewrite initialize_opening. set (s1 := printed opening s).
  unfold try_except, bind at 1, StockAgentCLI.construct.
  destruct (__init__ cfg (StockAgentCLI.terminal s1)) as [[[o|e]|e] p]
    eqn:Hinit.
  3: { now apply stays_init in Hinit. }
  2: { eexists. eexists. split; [reflexivity|]. simpl.
       repeat split. discriminate. }
  assert (Hfresh : config o = cfg /\ session_history o = []).
  { destruct (opt_truthy (Config.OPENAI_API_KEY cfg)) eqn:Hkey.
    - destruct (init_present cfg (StockAgentCLI.terminal s1) Hkey)
        as (o' & p' & line & Hrun & Hcfg & _ & Hhist & _).
      rewrite Hrun in Hinit. injection Hinit as <- <-. now split.
    - unfold __init__ in Hinit.
      rewrite (validate_config_missing cfg _ Hkey) in Hinit.
      discriminate Hinit. }
  destruct Hfresh as [Hcfg Hhist].
  unfold bind at 1, StockAgentCLI.assign_system, modify.
  unfold bind at 1, StockAgentCLI.on_system, gets. simpl.
  destruct (is_initialized o) eqn:Hready.
  2: { eexists. eexists. split; [reflexivity|]. simpl.
       repeat split. discriminate. }
  unfold bind at 1. rewrite print_printed.
  set (s2 := printed [ready_line] _).
  destruct (adds_show_system_info s2 o eq_refl)
    as (o' & queries & Hsys & Hrun & Hin & Hsub & Happ).
  unfold bind at 1.
  destruct (StockAgentCLI.show_system_info s2) as [[[[]|e]|e] s3] eqn:Hshow;
    simpl in *.
  3: { now apply stays_show_system_info in Hshow. }
  - exists true, s3. split; [reflexivity|]. split; [exact Hrun|].
    split; [exact Hin|]. intros _. exists o'. split; [exact Hsys|].
    apply sublist_nil_r in Hsub. subst queries.
    destruct Happ as (Hc & _ & _ & _ & _ & Hi & new & Hh & Hq).
    apply map_eq_nil in Hq. subst new.
    rewrite app_nil_r in Hh. repeat split; congruence.
  - eexists. eexists. split; [reflexivity|]. simpl.
    split; [exact Hrun|]. split; [exact Hin|]. discriminate.
Qed.

(** X23.  [initialize] can report failure for a system that is ready.
    When the system was built and is initialized, but the junior
    agent's [get_capabilities] raises [e] while [show_system_info]
    collects what to print, the exception is caught by [initialize]:
    the success line is followed by the error line for [e], [False] is
    returned, and [self.system] stays bound to the initialized
    system. *)
Theorem initialize_fails_when_capabilities_fail `{Collaborators}
    `{!Reflection} `{!Runtime} (cfg : Config.t)
    (s : StockAgentCLI.session) (o : StockAgentSystem.t) (p : process)
    (a : Agent) (e : exn) (w : World) :
  __init__ cfg (StockAgentCLI.terminal (printed opening s))
  = (Returned o, p) ->
  is_initialized o = true ->
  junior_agent o = Some a ->
  agent_bool a = true ->
  get_capabilities a (world p) = (Raised e, w) ->
  StockAgentCLI.initialize cfg s
  = (Returned false,
     StockAgentCLI.Session
       (StockAgentCLI.Build (Some o)
          (StockAgentCLI.running (StockAgentCLI.cli s)))
       (Process w (console p ++ [ready_line; initialization_error e]))
       (StockAgentCLI.stdin s)).
Proof.
  intros Hinit Hready Hj Hb Hcaps.
  rewrite initialize_opening. set (s1 := printed opening s) in *.
  set (s2 := StockAgentCLI.Session
               (StockAgentCLI.Build (Some o)
                  (StockAgentCLI.running (StockAgentCLI.cli s)))
               (Process (world p) (console p ++ [ready_line]))
               (StockAgentCLI.stdin s)).
  assert (Hshow :
    StockAgentCLI.show_system_info s2
    = (Raised e,
       StockAgentCLI.Session
         (StockAgentCLI.Build (Some o)
            (StockAgentCLI.running (StockAgentCLI.cli s)))
         (Process w (console p ++ [ready_line]))
         (StockAgentCLI.stdin s))).
  { unfold StockAgentCLI.show_system_info.
    erewrite (bind_returned _ _ s2 s2); [|reflexivity].
    apply bind_raised.
    exact (on_system_run "get_agent_capabilities" _ s2 o _ _ eq_refl
             (capabilities_raise (Frame o (StockAgentCLI.terminal s2))
                a e w Hready Hj Hb Hcaps)). }
  rewrite (try_raised _ _ _
             (StockAgentCLI.Session
                (StockAgentCLI.Build (Some o)
                   (StockAgentCLI.running (StockAgentCLI.cli s)))
                (Process w (console p ++ [ready_line]))
                (StockAgentCLI.stdin s)) e).
  - rewrite (bind_returned _ _ _ _ _ (print_printed _ _)).
    unfold ret, printed. simpl. now rewrite <- app_assoc.
  - unfold bind at 1, StockAgentCLI.construct. rewrite Hinit.
    unfold bind at 1, StockAgentCLI.assign_system, modify.
    unfold bind at 1, StockAgentCLI.on_system, gets. simpl.
    rewrite Hready.
    rewrite (bind_returned _ _ _ s2 tt) by reflexivity.
    now apply bind_raised.
Qed.

Lemma initialize_fails_when_capabilities_fail_witness :
  exists s',
    @StockAgentCLI.initialize Lab.collaborators Lab.reflection Lab.runtime
      Lab.config Lab.fresh
    = (Returned false, s')
    /\ (is_initialized <$> StockAgentCLI.system (StockAgentCLI.cli s'))
       = Some true.
Proof.
  eexists. split.
  - exact (@initialize_fails_when_capabilities_fail Lab.collaborators
             Lab.reflection Lab.runtime Lab.config Lab.fresh
             (self Lab.ready)
             (@Process Lab.collaborators 4%nat
                (opening ++ [initialized_message]))
             "junior"
             (Exn "NotImplementedError" "capabilities are not listed")
             4%nat eq_refl eq_refl eq_refl eq_refl eq_refl).
  - reflexivity.
Defined.

Lemma initialize_true_means_ready_witness :
  exists s' o,
    @StockAgentCLI.initialize Demo.collaborators Demo.reflection
      Demo.runtime Demo.config
      (StockAgentCLI.Session StockAgentCLI.__init__ Demo.boot [])
    = (Returned true, s')
    /\ StockAgentCLI.system (StockAgentCLI.cli s') = Some o
    /\ is_initialized o = true.
Proof.
  destruct (@initialize_true_means_ready Demo.collaborators
              Demo.reflection Demo.runtime Demo.config
              (StockAgentCLI.Session StockAgentCLI.__init__ Demo.boot []))
    as (b & s' & Hrun & _ & _ & Hready).
  assert (Hb : b = true).
  { apply (f_equal fst) in Hrun. vm_compute in Hrun. congruence. }
  subst b. destruct (Hready eq_refl) as (o & Hsys & Hinit & _).
  exists s', o. split; [exact Hrun|]. split; [exact Hsys|exact Hinit].
Defined.

Lemma str_tells_flag_and_tool_count_witness :
  fst (@__str__ Demo.collaborators Demo.ready)
  = fst (@__str__ Demo.collaborators Demo.used).
Proof.
  exact (proj2 (proj1 (@str_tells_flag_and_tool_count Demo.collaborators
                         Demo.reflection Demo.ready Demo.used))
           (conj eq_refl eq_refl)).
Defined.
